(** * Task / tag association model of the worker API

    A shallow embedding of [src/worker/index.ts] (the Hono route handlers for
    tasks and tags), of the zod schemas declared at its top, of
    [getAuthUser] and of the [tag] / [task_tag] tables created by the SQL
    migrations, followed by the properties of the task/tag association
    contract.

    The database behind [c.env.DB] is modelled as three tables, each a list
    of rows in insertion order, together with the two facts about it that
    the handlers rely on without stating them: whether the engine enforces
    foreign keys (D1, the engine behind [drizzle-orm/d1], does), and which
    [ON DELETE] action the [task_tag.task_id] reference was created with
    (the repository carries one DDL with [NO ACTION] and one with
    [cascade]). A property that depends on either says so in a hypothesis.

    A handler is a computation in a state monad over the database; the
    session, the clock and the random identifier it reads come with the
    request context. [fetch] serves one request. *)

From stdpp Require Import base tactics option list strings.
From Stdlib Require Import ZArith.

Local Open Scope string_scope.

(** ** Rows and tables *)

(** Modelled from the spec: the [task] table and the two enums are declared
    in [./db/schema], which the worker imports; the enum members are the ones
    listed in the data model of the spec (and used by the client schema). *)
Inductive taskStatusEnum := todo | in_progress | completed.

(** Modelled from the spec: [taskPriorityEnum] of [./db/schema], with the
    members the data model of the spec lists. *)
Inductive taskPriorityEnum := low | medium | high.

Module Task.
(** Modelled from the spec: the columns of the [task] table
    ([./db/schema] is imported by the worker). Dates are epoch milliseconds. *)
Record row := mk {
  id : string;
  title : string;
  description : option string;
  status : taskStatusEnum;
  priority : taskPriorityEnum;
  userId : string;
  createdAt : Z;
  updatedAt : Z
}.
End Task.

Module Tag.
(** [CREATE TABLE tag (id, name, user_id, created_at)]. *)
Record row := mk {
  id : string;
  name : string;
  userId : string;
  createdAt : Z
}.
End Tag.

Module TaskTag.
(** [CREATE TABLE task_tag (task_id, tag_id)]: no key, no uniqueness. *)
Record row := mk {
  taskId : string;
  tagId : string
}.
End TaskTag.

(** [ON DELETE] action of [task_tag.task_id REFERENCES task(id)]. *)
Inductive OnDelete := NoAction | Cascade.

Record Schema := {
  foreign_keys : bool;          (* the engine checks FOREIGN KEY clauses *)
  task_tag_on_delete : OnDelete (* action declared for task_tag.task_id *)
}.

Record DB := {
  schema : Schema;
  task : list Task.row;
  tag : list Tag.row;
  taskTag : list TaskTag.row
}.

Global Instance taskStatusEnum_eq_dec : EqDecision taskStatusEnum.
Proof. solve_decision. Defined.
Global Instance taskPriorityEnum_eq_dec : EqDecision taskPriorityEnum.
Proof. solve_decision. Defined.
Global Instance Task_row_eq_dec : EqDecision Task.row.
Proof. solve_decision. Defined.
Global Instance Tag_row_eq_dec : EqDecision Tag.row.
Proof. solve_decision. Defined.
Global Instance TaskTag_row_eq_dec : EqDecision TaskTag.row.
Proof. solve_decision. Defined.

Definition with_task (ts : list Task.row) (db : DB) : DB :=
  {| schema := schema db; task := ts; tag := tag db; taskTag := taskTag db |}.
Definition with_tag (gs : list Tag.row) (db : DB) : DB :=
  {| schema := schema db; task := task db; tag := gs; taskTag := taskTag db |}.
Definition with_taskTag (rs : list TaskTag.row) (db : DB) : DB :=
  {| schema := schema db; task := task db; tag := tag db; taskTag := rs |}.

(** ** Statements: a state monad over the database in which a statement
    may throw: a constraint error, or the error of D1 for a parameter that
    is [undefined]. A throw leaves the database as the statements before it
    left it (each statement commits on its own). *)

Inductive DbError := CONSTRAINT_PRIMARYKEY | CONSTRAINT_FOREIGNKEY | D1_TYPE_ERROR.

Inductive outcome (A : Type) :=
| Returned (a : A)
| Threw (e : DbError).
Arguments Returned {A} a.
Arguments Threw {A} e.

Definition M (A : Type) : Type := DB → outcome A * DB.

Global Instance M_ret : MRet M := λ A a db, (Returned a, db).
Global Instance M_bind : MBind M := λ A B k m db,
  match m db with
  | (Returned a, db') => k a db'
  | (Threw e, db') => (Threw e, db')
  end.

Definition throw {A} (e : DbError) : M A := λ db, (Threw e, db).

(** [await db.select()...]: a query reads the tables and changes nothing. *)
Definition select {A} (q : DB → list A) : M (list A) := λ db, (Returned (q db), db).

(** A row of a joined select as the handler receives it. For
    [db.select().from(a).innerJoin(b, ..)] without a selection drizzle
    resolves to one object per result row, keyed by table name
    ([{ task_tag: {..}, tag: {..} }]); the handlers also provide for a row
    that is an array and test for it with [Array.isArray(r)]. *)
Inductive JoinRow (A B : Type) :=
| RowObject (a : A) (b : B)
| RowTuple (a : A) (b : B).
Arguments RowObject {A B} a b.
Arguments RowTuple {A B} a b.

(** The rows of a result set as drizzle hands them over. *)
Definition object_rows {A B} (rows : list (A * B)) : list (JoinRow A B) :=
  (λ r, RowObject r.1 r.2) <$> rows.

(** [await db.select().from(a).innerJoin(b, ..).where(..)] *)
Definition select_join {A B} (q : DB → list (A * B)) : M (list (JoinRow A B)) :=
  select (λ db, object_rows (q db)).

(** [for (const x of xs) { await body(x) }] *)
Fixpoint for_of {A} (xs : list A) (body : A → M unit) : M unit :=
  match xs with
  | [] => mret ()
  | x :: xs' => body x;; for_of xs' body
  end.

(** [await Promise.all(xs.map(async (x) => f(x)))] for bodies that await one
    after the other. *)
Fixpoint Promise_all_map {A B} (xs : list A) (f : A → M B) : M (list B) :=
  match xs with
  | [] => mret []
  | x :: xs' => y ← f x; ys ← Promise_all_map xs' f; mret (y :: ys)
  end.

(** *** Queries *)

(** [db.select().from(task).where(eq(task.userId, uid))] *)
Definition task_where_userId (uid : string) (db : DB) : list Task.row :=
  filter (λ t, Task.userId t = uid) (task db).

(** [db.select().from(task).where(and(eq(task.id, tid), eq(task.userId, uid)))] *)
Definition task_where_id_userId (tid uid : string) (db : DB) : list Task.row :=
  filter (λ t, Task.id t = tid ∧ Task.userId t = uid) (task db).

(** [db.select().from(task).where(eq(task.id, tid))] *)
Definition task_where_id (tid : string) (db : DB) : list Task.row :=
  filter (λ t, Task.id t = tid) (task db).

(** [db.select().from(task).innerJoin(taskTag, eq(task.id, taskTag.taskId))
      .where(and(eq(task.userId, uid), eq(taskTag.tagId, g)))]:
    the result set, one row per pair of a task row and a matching
    task_tag row. *)
Definition task_join_taskTag (uid g : string) (db : DB)
  : list (Task.row * TaskTag.row) :=
  filter (λ r, Task.userId r.1 = uid ∧ TaskTag.tagId r.2 = g)
    (t ← task db;
     (λ r, (t, r)) <$> filter (λ r, Task.id t = TaskTag.taskId r) (taskTag db)).

(** [db.select().from(taskTag).innerJoin(tag, eq(taskTag.tagId, tag.id))
      .where(eq(taskTag.taskId, tid))]: the result set, one row per pair
    of a task_tag row and a tag row with that id. *)
Definition taskTag_join_tag (tid : string) (db : DB)
  : list (TaskTag.row * Tag.row) :=
  filter (λ r, TaskTag.taskId r.1 = tid)
    (r ← taskTag db;
     (λ g, (r, g)) <$> filter (λ g, TaskTag.tagId r = Tag.id g) (tag db)).

(** [db.select().from(tag).where(eq(tag.userId, uid))] *)
Definition tag_where_userId (uid : string) (db : DB) : list Tag.row :=
  filter (λ g, Tag.userId g = uid) (tag db).

(** *** Insert, update, delete *)

(** [db.insert(task).values(r)]: [id] is the primary key. The [user] table
    that [user_id] references belongs to the authentication provider; the
    user of a session is taken to have its row there. *)
Definition insert_task (r : Task.row) : M unit := λ db,
  if decide (Task.id r ∈ Task.id <$> task db)
  then (Threw CONSTRAINT_PRIMARYKEY, db)
  else (Returned (), with_task (task db ++ [r]) db).

(** [db.insert(tag).values(g)]: [id] is the primary key. *)
Definition insert_tag (g : Tag.row) : M unit := λ db,
  if decide (Tag.id g ∈ Tag.id <$> tag db)
  then (Threw CONSTRAINT_PRIMARYKEY, db)
  else (Returned (), with_tag (tag db ++ [g]) db).

(** [db.insert(taskTag).values(r)]: both columns reference a parent row,
    which an engine that enforces foreign keys requires to exist. *)
Definition insert_taskTag (r : TaskTag.row) : M unit := λ db,
  if foreign_keys (schema db)
  then if decide (TaskTag.taskId r ∈ Task.id <$> task db
                  ∧ TaskTag.tagId r ∈ Tag.id <$> tag db)
       then (Returned (), with_taskTag (taskTag db ++ [r]) db)
       else (Threw CONSTRAINT_FOREIGNKEY, db)
  else (Returned (), with_taskTag (taskTag db ++ [r]) db).

(** [Partial<typeof existingTask>] as built by the PATCH handler:
    [updatedAt] is always there, each other entry only when
    [body.x !== undefined]. *)
Record updateData := {
  set_updatedAt : Z;
  set_title : option string;
  set_description : option string;
  set_status : option taskStatusEnum;
  set_priority : option taskPriorityEnum
}.

Definition apply_set (u : updateData) (t : Task.row) : Task.row :=
  {| Task.id := Task.id t;
     Task.title := default (Task.title t) (set_title u);
     Task.description :=
       match set_description u with
       | Some d => Some d
       | None => Task.description t
       end;
     Task.status := default (Task.status t) (set_status u);
     Task.priority := default (Task.priority t) (set_priority u);
     Task.userId := Task.userId t;
     Task.createdAt := Task.createdAt t;
     Task.updatedAt := set_updatedAt u |}.

(** [db.update(task).set(u).where(eq(task.id, tid))] *)
Definition update_task_where_id (tid : string) (u : updateData) : M unit := λ db,
  (Returned (),
   with_task ((λ t, if decide (Task.id t = tid) then apply_set u t else t) <$> task db) db).

(** [db.delete(taskTag).where(eq(taskTag.taskId, tid))] *)
Definition delete_taskTag_where_taskId (tid : string) : M unit := λ db,
  (Returned (), with_taskTag (filter (λ r, TaskTag.taskId r ≠ tid) (taskTag db)) db).

(** [db.delete(task).where(eq(task.id, tid))]. What happens to the task_tag
    rows of a deleted task is not in the statement but in the schema:
    without foreign-key enforcement they stay; with it, [cascade] removes
    them and [NO ACTION] rejects the statement while such rows exist. *)
Definition delete_task_where_id (tid : string) : M unit := λ db,
  let remaining := filter (λ t, Task.id t ≠ tid) (task db) in
  let children := filter (λ r, TaskTag.taskId r = tid) (taskTag db) in
  if decide (task_where_id tid db = []) then (Returned (), db)
  else if foreign_keys (schema db) then
    match task_tag_on_delete (schema db) with
    | Cascade =>
        (Returned (),
         with_taskTag (filter (λ r, TaskTag.taskId r ≠ tid) (taskTag db))
           (with_task remaining db))
    | NoAction =>
        if decide (children = []) then (Returned (), with_task remaining db)
        else (Threw CONSTRAINT_FOREIGNKEY, db)
    end
  else (Returned (), with_task remaining db).

(** ** Requests *)

(** A parsed JSON request body. *)
#[local] Unset Elimination Schemes.
Inductive json :=
| JNull
| JBool (b : bool)
| JNumber (n : Z)
| JString (s : string)
| JArray (items : list json)
| JObject (properties : list (string * json)).
#[local] Set Elimination Schemes.

(** [o[k]] on a parsed object: of a repeated key the last one counts. *)
Definition property (k : string) (o : list (string * json)) : option json :=
  foldl (λ acc kv, if decide (kv.1 = k) then Some kv.2 else acc) None o.

(** *** zod combinators, as far as the schemas use them *)

Definition z_string (v : json) : option string :=
  match v with JString s => Some s | _ => None end.

(** [z.string().min(1)] *)
Definition z_string_min1 (v : json) : option string :=
  s ← z_string v; if decide (1 ≤ String.length s)%nat then Some s else None.

(** [z.enum(taskStatusEnum)] *)
Definition z_taskStatusEnum (v : json) : option taskStatusEnum :=
  s ← z_string v;
  if decide (s = "todo") then Some todo
  else if decide (s = "in_progress") then Some in_progress
  else if decide (s = "completed") then Some completed
  else None.

(** [z.enum(taskPriorityEnum)] *)
Definition z_taskPriorityEnum (v : json) : option taskPriorityEnum :=
  s ← z_string v;
  if decide (s = "low") then Some low
  else if decide (s = "medium") then Some medium
  else if decide (s = "high") then Some high
  else None.

(** [z.array(z.string())] *)
Definition z_array_string (v : json) : option (list string) :=
  match v with JArray items => mapM z_string items | _ => None end.

(** [.optional()]: an absent property parses to [undefined]. *)
Definition z_optional {A} (p : json → option A) (v : option json) : option (option A) :=
  match v with
  | None => Some None
  | Some x => Some <$> p x
  end.

(** A required property. *)
Definition z_required {A} (p : json → option A) (v : option json) : option A :=
  v ≫= p.

Module CreateTask.
(** [z.infer<typeof createTaskSchema>] after defaults. *)
Record body := mk {
  title : string;
  description : option string;
  status : taskStatusEnum;
  priority : taskPriorityEnum;
  tags : option (list string)
}.
End CreateTask.

Module UpdateTask.
(** [z.infer<typeof updateTaskSchema>] *)
Record body := mk {
  title : option string;
  description : option string;
  status : option taskStatusEnum;
  priority : option taskPriorityEnum;
  tags : option (list string)
}.
End UpdateTask.

Module CreateTag.
Record body := mk { name : string }.
End CreateTag.

Definition createTaskSchema (v : json) : option CreateTask.body :=
  match v with
  | JObject o =>
      title ← z_required z_string_min1 (property "title" o);
      description ← z_optional z_string (property "description" o);
      status ← z_optional z_taskStatusEnum (property "status" o);
      priority ← z_optional z_taskPriorityEnum (property "priority" o);
      tags ← z_optional z_array_string (property "tags" o);
      Some {| CreateTask.title := title;
              CreateTask.description := description;
              CreateTask.status := default todo status;
              CreateTask.priority := default medium priority;
              CreateTask.tags := tags |}
  | _ => None
  end.

Definition updateTaskSchema (v : json) : option UpdateTask.body :=
  match v with
  | JObject o =>
      title ← z_optional z_string_min1 (property "title" o);
      description ← z_optional z_string (property "description" o);
      status ← z_optional z_taskStatusEnum (property "status" o);
      priority ← z_optional z_taskPriorityEnum (property "priority" o);
      tags ← z_optional z_array_string (property "tags" o);
      Some {| UpdateTask.title := title;
              UpdateTask.description := description;
              UpdateTask.status := status;
              UpdateTask.priority := priority;
              UpdateTask.tags := tags |}
  | _ => None
  end.

(** [z.object({ name: z.string().min(1) })] *)
Definition createTagSchema (v : json) : option CreateTag.body :=
  match v with
  | JObject o =>
      name ← z_required z_string_min1 (property "name" o);
      Some {| CreateTag.name := name |}
  | _ => None
  end.

(** *** The request context *)

Record User := { user_id : string }.
Record Session := { user : User }.

(** What a handler takes from outside the database: the answer of
    [auth.api.getSession] for the request headers, the clock read by
    [new Date()] and the identifier drawn by [crypto.randomUUID()]. *)
Record Context := {
  getSession : option Session;
  Date_now : Z;
  randomUUID : string
}.

(** [session?.user ?? null] *)
Definition getAuthUser (c : Context) : option User := user <$> getSession c.

(** ** Responses *)

(** [{ id: joinedTag.id, name: joinedTag.name }]. Reading a property an
    object does not have gives [undefined], and [c.json] leaves a property
    with that value out of the response. *)
Record TagEntry := { entry_id : option string; entry_name : option string }.

(** A task object of a response: the spread task row, when there is one,
    and the [tags] property, when the handler adds it. *)
Record TaskJson := {
  fields : option Task.row;
  tags : option (list TagEntry)
}.

Inductive Payload :=
| error (msg : string)
| tasks_payload (ts : list TaskJson)
| task_payload (t : TaskJson)
| tags_payload (gs : list Tag.row)
| tag_payload (g : Tag.row)
| message (msg : string)
| validation_error
| internal_server_error.

Record Response := { status : nat; payload : Payload }.

Definition c_json (p : Payload) (st : nat) : Response := {| status := st; payload := p |}.

Global Instance TagEntry_eq_dec : EqDecision TagEntry.
Proof. solve_decision. Defined.

(** ** Route handlers *)

Definition Unauthorized : Response := c_json (error "Unauthorized") 401.
Definition Task_not_found : Response := c_json (error "Task not found") 404.

(** [tagRows.map((r) => { const joinedTag = Array.isArray(r) ? r[1] : r;
                          return { id: joinedTag.id, name: joinedTag.name }; })] *)
Definition tagsForTask (tagRows : list (JoinRow TaskTag.row Tag.row)) : list TagEntry :=
  (λ r, match r with
        | RowTuple _ joinedTag =>
            (* Array.isArray(r): joinedTag is r[1], the tag row *)
            {| entry_id := Some (Tag.id joinedTag);
               entry_name := Some (Tag.name joinedTag) |}
        | RowObject _ _ =>
            (* joinedTag is r itself, whose only keys are task_tag and tag *)
            {| entry_id := None; entry_name := None |}
        end) <$> tagRows.

(** [if (tagFilter)]: an absent parameter ([undefined]) and the empty string
    are falsy; the result is the filter the truthy branch runs with. *)
Definition truthy (tagFilter : option string) : option string :=
  match tagFilter with
  | Some s => if decide (s = "") then None else Some s
  | None => None
  end.

(** [app.get("/api/tasks", ...)]; [query_tag] is [c.req.query("tag")].
    An element of [tasks] is a task row ([inl]) or, from
    [Array.isArray(r) ? r[0] : r] on a row that is no array, the whole row
    of the join ([inr]). Such a row has no [id]: the query for its tags is
    handed [undefined], which D1 refuses to bind, and the statement throws. *)
Definition get_api_tasks (c : Context) (query_tag : option string) : M Response :=
  match getAuthUser c with
  | None => mret Unauthorized
  | Some user =>
      let tagFilter := query_tag in
      tasks ← match truthy tagFilter with
              | Some tagFilter =>
                  rows ← select_join (task_join_taskTag (user_id user) tagFilter);
                  mret ((λ r, match r with
                              | RowTuple t _ => inl t
                              | RowObject _ _ => inr r
                              end) <$> rows)
              | None =>
                  rows ← select (task_where_userId (user_id user));
                  mret (inl <$> rows)
              end;
      tasksWithTags ← Promise_all_map tasks (λ t,
        match t with
        | inl t =>
            tagRows ← select_join (taskTag_join_tag (Task.id t));
            mret {| fields := Some t; tags := Some (tagsForTask tagRows) |}
        | inr _ => throw D1_TYPE_ERROR
        end);
      mret (c_json (tasks_payload tasksWithTags) 200)
  end.

(** [app.get("/api/tasks/:id", ...)] *)
Definition get_api_tasks_id (c : Context) (taskId : string) : M Response :=
  match getAuthUser c with
  | None => mret Unauthorized
  | Some user =>
      found ← select (task_where_id_userId taskId (user_id user));
      match head found with
      | None => mret Task_not_found
      | Some foundTask =>
          mret (c_json (task_payload {| fields := Some foundTask; tags := None |}) 200)
      end
  end.

(** [zValidator("json", schema)] in front of a handler: the body is parsed
    before the handler, and so before its session check, runs. *)
Definition zValidator {B} (schema : json → option B)
    (handler : Context → B → M Response) (c : Context) (raw : json) : M Response :=
  match schema raw with
  | None => mret (c_json validation_error 400)
  | Some body => handler c body
  end.

(** [app.post("/api/tasks", zValidator("json", createTaskSchema), ...)];
    [body.description ?? null] is the optional description, and the tag
    loop runs when [body.tags] is a non-empty array. *)
Definition post_api_tasks : Context → json → M Response :=
  zValidator createTaskSchema (λ c body,
    match getAuthUser c with
    | None => mret Unauthorized
    | Some user =>
        let now := Date_now c in
        let newTask :=
          {| Task.id := randomUUID c;
             Task.title := CreateTask.title body;
             Task.description := CreateTask.description body;
             Task.status := CreateTask.status body;
             Task.priority := CreateTask.priority body;
             Task.userId := user_id user;
             Task.createdAt := now;
             Task.updatedAt := now |} in
        insert_task newTask;;
        match CreateTask.tags body with
        | Some ((_ :: _) as tags) =>
            for_of tags (λ tagId,
              insert_taskTag {| TaskTag.taskId := Task.id newTask; TaskTag.tagId := tagId |})
        | _ => mret ()
        end;;
        tagRows ← select_join (taskTag_join_tag (Task.id newTask));
        mret (c_json (task_payload {| fields := Some newTask;
                                      tags := Some (tagsForTask tagRows) |}) 201)
    end).

(** [app.patch("/api/tasks/:id", zValidator("json", updateTaskSchema), ...)] *)
Definition patch_api_tasks_id (taskId : string) : Context → json → M Response :=
  zValidator updateTaskSchema (λ c body,
    match getAuthUser c with
    | None => mret Unauthorized
    | Some user =>
        existing ← select (task_where_id_userId taskId (user_id user));
        match head existing with
        | None => mret Task_not_found
        | Some existingTask =>
            let updateData :=
              {| set_updatedAt := Date_now c;
                 set_title := UpdateTask.title body;
                 set_description := UpdateTask.description body;
                 set_status := UpdateTask.status body;
                 set_priority := UpdateTask.priority body |} in
            update_task_where_id taskId updateData;;
            match UpdateTask.tags body with
            | Some tags =>
                delete_taskTag_where_taskId taskId;;
                for_of tags (λ tagId,
                  insert_taskTag {| TaskTag.taskId := taskId; TaskTag.tagId := tagId |})
            | None => mret ()
            end;;
            updated ← select (task_where_id taskId);
            tagRows ← select_join (taskTag_join_tag taskId);
            mret (c_json (task_payload {| fields := head updated;
                                          tags := Some (tagsForTask tagRows) |}) 200)
        end
    end).

(** [app.get("/api/tags", ...)] *)
Definition get_api_tags (c : Context) : M Response :=
  match getAuthUser c with
  | None => mret Unauthorized
  | Some user =>
      tags ← select (tag_where_userId (user_id user));
      mret (c_json (tags_payload tags) 200)
  end.

(** [app.post("/api/tags", zValidator("json", z.object({ name })), ...)] *)
Definition post_api_tags : Context → json → M Response :=
  zValidator createTagSchema (λ c body,
    match getAuthUser c with
    | None => mret Unauthorized
    | Some user =>
        let newTag :=
          {| Tag.id := randomUUID c;
             Tag.name := CreateTag.name body;
             Tag.userId := user_id user;
             Tag.createdAt := Date_now c |} in
        insert_tag newTag;;
        mret (c_json (tag_payload newTag) 201)
    end).

(** [app.delete("/api/tasks/:id", ...)] *)
Definition delete_api_tasks_id (c : Context) (taskId : string) : M Response :=
  match getAuthUser c with
  | None => mret Unauthorized
  | Some user =>
      existing ← select (task_where_id_userId taskId (user_id user));
      match head existing with
      | None => mret Task_not_found
      | Some existingTask =>
          delete_task_where_id taskId;;
          mret (c_json (message "Task deleted successfully") 200)
      end
  end.

(** *** The application *)

Inductive Request :=
| GET_tasks (query_tag : option string)
| GET_tasks_id (id : string)
| POST_tasks (body : json)
| PATCH_tasks_id (id : string) (body : json)
| GET_tags
| POST_tags (body : json)
| DELETE_tasks_id (id : string).

Definition app (c : Context) (r : Request) : M Response :=
  match r with
  | GET_tasks q => get_api_tasks c q
  | GET_tasks_id id => get_api_tasks_id c id
  | POST_tasks body => post_api_tasks c body
  | PATCH_tasks_id id body => patch_api_tasks_id id c body
  | GET_tags => get_api_tags c
  | POST_tags body => post_api_tags c body
  | DELETE_tasks_id id => delete_api_tasks_id c id
  end.

(** One request served against the database: the response and the database
    it leaves. A statement that throws surfaces as the framework's 500. *)
Definition fetch (c : Context) (r : Request) (db : DB) : Response * DB :=
  match app c r db with
  | (Returned resp, db') => (resp, db')
  | (Threw _, db') => (c_json internal_server_error 500, db')
  end.

(** * Client components

    The parts of the React components that compute: the tag checkboxes of
    the task forms, the tag filter and the status tabs of the task table,
    and the theme provider with its toggle. Component state is a record;
    an event handler or an effect is a function on it. *)

(** ** Tag checkboxes ([TaskCellViewer], [ActionsCell], [TagsSelector]) *)

(** [selectedTags.includes(tag.id)], the [checked] property of a box. *)
Definition includes (selectedTags : list string) (id : string) : bool :=
  bool_decide (id ∈ selectedTags).

(** [onChange] of the box of tag [id]; [checked] is [e.target.checked]:
    [[...selectedTags, id]] or [selectedTags.filter((x) => x !== id)]. *)
Definition onChange_tag (checked : bool) (id : string) (selectedTags : list string)
  : list string :=
  if checked then selectedTags ++ [id] else filter (λ x, x ≠ id) selectedTags.

(** ** The task table ([DataTable]) *)

(** [{ id, name }], an entry of [tags] in the [taskSchema] of the client. *)
Record TagRef := { ref_id : string; ref_name : string }.

Global Instance TagRef_eq_dec : EqDecision TagRef.
Proof. solve_decision. Defined.

Module ClientTask.
(** [z.infer<typeof taskSchema>] *)
Record t := mk {
  id : string;
  title : string;
  description : string;
  status : taskStatusEnum;
  priority : taskPriorityEnum;
  tags : list TagRef;
  createdAt : string
}.
End ClientTask.

(** [filteredTasks]: with a selection other than the empty string and
    ["all"], the tasks one of whose tags has the selected id. *)
Definition filteredTasks (selectedTagId : string) (tasks : list ClientTask.t)
  : list ClientTask.t :=
  if decide (selectedTagId ≠ "" ∧ selectedTagId ≠ "all")
  then filter (λ t, Exists (λ tag, ref_id tag = selectedTagId) (ClientTask.tags t)) tasks
  else tasks.

(** [tasks.filter((t) => t.status === s)], the rows of a status tab; its
    length is the number in the badge of the tab. *)
Definition status_tab (s : taskStatusEnum) (tasks : list ClientTask.t) : list ClientTask.t :=
  filter (λ t, ClientTask.status t = s) tasks.

(** ** The theme ([ThemeProvider], [ThemeToggle]) *)

(** The state of the provider and what its effects write: the [theme] and
    [actualTheme] state variables, whether [document.documentElement] has
    the class [dark], and the entry of [localStorage] under [storageKey].
    A stored string is cast to [Theme] unchecked, so themes are strings. *)
Record ThemeState := {
  theme : string;
  actualTheme : string;
  root_dark : bool;
  stored : option string
}.

(** [(localStorage.getItem(storageKey) as Theme) || defaultTheme] *)
Definition initialTheme (item : option string) (defaultTheme : string) : string :=
  match item with
  | Some s => if decide (s = "") then defaultTheme else s
  | None => defaultTheme
  end.

(** The state of a provider that has just been mounted. *)
Definition mounted (item : option string) (defaultTheme : string) (dark : bool) : ThemeState :=
  {| theme := initialTheme item defaultTheme; actualTheme := "light";
     root_dark := dark; stored := item |}.

(** [resolvedTheme] of the first effect; [matches] is
    [window.matchMedia("(prefers-color-scheme: dark)").matches]. *)
Definition resolvedTheme (theme : string) (matches : bool) : string :=
  if decide (theme = "system") then (if matches then "dark" else "light") else theme.

(** The effect on [[theme, storageKey]]: add or remove the class, set
    [actualTheme], store the theme. *)
Definition theme_effect (matches : bool) (s : ThemeState) : ThemeState :=
  let resolved := resolvedTheme (theme s) matches in
  {| theme := theme s;
     actualTheme := resolved;
     root_dark := bool_decide (resolved = "dark");
     stored := Some (theme s) |}.

(** [handleChange] of the media-query listener, which the second effect
    registers only while the theme is ["system"]. *)
Definition handleChange (matches : bool) (s : ThemeState) : ThemeState :=
  if decide (theme s = "system")
  then {| theme := theme s;
          actualTheme := if matches then "dark" else "light";
          root_dark := matches;
          stored := stored s |}
  else s.

(** [setTheme(newTheme)] followed by the effect its change of [theme] runs. *)
Definition setTheme (matches : bool) (newTheme : string) (s : ThemeState) : ThemeState :=
  theme_effect matches
    {| theme := newTheme; actualTheme := actualTheme s;
       root_dark := root_dark s; stored := stored s |}.

(** [onClick] of [ThemeToggle]:
    [setTheme(actualTheme === "dark" ? "light" : "dark")]. *)
Definition ThemeToggle_onClick (matches : bool) (s : ThemeState) : ThemeState :=
  setTheme matches (if decide (actualTheme s = "dark") then "light" else "dark") s.

(** * Vocabulary of the statements *)

(** Whether an insert of [r] into [task_tag] is accepted: it depends on the
    schema and on the keys of the parent tables, none of which an insert
    into [task_tag] changes. *)
Definition accepts (db : DB) (r : TaskTag.row) : Prop :=
  foreign_keys (schema db) = true →
  TaskTag.taskId r ∈ Task.id <$> task db ∧ TaskTag.tagId r ∈ Tag.id <$> tag db.

Global Instance accepts_dec db r : Decision (accepts db r).
Proof. unfold accepts. apply _. Defined.

(** The rows a loop of inserts stores: the longest prefix of accepted rows
    (the loop throws at the first rejected one). *)
Fixpoint accepted (db : DB) (rs : list TaskTag.row) : list TaskTag.row :=
  match rs with
  | [] => []
  | r :: rs' => if decide (accepts db r) then r :: accepted db rs' else []
  end.

(** The [tags] array a handler builds for a task id. *)
Definition joined_tags (tid : string) (db : DB) : list TagEntry :=
  tagsForTask (object_rows (taskTag_join_tag tid db)).

(** The task object the listing, POST and PATCH build: the row with the
    [tags] array of its id. *)
Definition embed (db : DB) (t : Task.row) : TaskJson :=
  {| fields := Some t; tags := Some (joined_tags (Task.id t) db) |}.

(** [{}], an entry with neither id nor name. *)
Definition empty_entry : TagEntry := {| entry_id := None; entry_name := None |}.

(** The row PATCH writes over a task row. *)
Definition patch_set (c : Context) (body : UpdateTask.body) : updateData :=
  {| set_updatedAt := Date_now c;
     set_title := UpdateTask.title body;
     set_description := UpdateTask.description body;
     set_status := UpdateTask.status body;
     set_priority := UpdateTask.priority body |}.

(** The task table after the UPDATE of a PATCH. *)
Definition patch_rows (tid : string) (u : updateData) (ts : list Task.row) : list Task.row :=
  (λ t, if decide (Task.id t = tid) then apply_set u t else t) <$> ts.

(** The database a PATCH that found its task leaves behind. *)
Definition patch_db (c : Context) (tid : string) (body : UpdateTask.body) (db : DB) : DB :=
  let db1 := with_task (patch_rows tid (patch_set c body) (task db)) db in
  match UpdateTask.tags body with
  | None => db1
  | Some l =>
      with_taskTag (filter (λ r, TaskTag.taskId r ≠ tid) (taskTag db)
                    ++ accepted db (TaskTag.mk tid <$> l)) db1
  end.

(** Whether every tag insert of the PATCH is accepted. *)
Definition patch_accepted (tid : string) (body : UpdateTask.body) (db : DB) : bool :=
  match UpdateTask.tags body with
  | None => true
  | Some l => bool_decide (Forall (accepts db) (TaskTag.mk tid <$> l))
  end.

(** The row POST inserts. *)
Definition new_task (c : Context) (u : User) (body : CreateTask.body) : Task.row :=
  {| Task.id := randomUUID c;
     Task.title := CreateTask.title body;
     Task.description := CreateTask.description body;
     Task.status := CreateTask.status body;
     Task.priority := CreateTask.priority body;
     Task.userId := user_id u;
     Task.createdAt := Date_now c;
     Task.updatedAt := Date_now c |}.

(** The task_tag rows POST tries to insert, one per supplied tag id. *)
Definition new_links (c : Context) (body : CreateTask.body) : list TaskTag.row :=
  TaskTag.mk (randomUUID c) <$> default [] (CreateTask.tags body).

(** The database a POST whose task insert went through leaves behind. *)
Definition post_db (c : Context) (u : User) (body : CreateTask.body) (db : DB) : DB :=
  let db1 := with_task (task db ++ [new_task c u body]) db in
  with_taskTag (taskTag db ++ accepted db1 (new_links c body)) db1.

(** The task_tag rows of a task, in table order. *)
Definition links (tid : string) (db : DB) : list TaskTag.row :=
  filter (λ r, TaskTag.taskId r = tid) (taskTag db).

(** The task objects of a listing response. *)
Definition listing (resp : Response) : list TaskJson :=
  match payload resp with
  | tasks_payload ts => ts
  | _ => []
  end.

(** Whether the body of the request passes the validator placed in front
    of its handler (requests without a validated body always do). *)
Definition passes_validator (r : Request) : bool :=
  match r with
  | POST_tasks raw => bool_decide (is_Some (createTaskSchema raw))
  | PATCH_tasks_id _ raw => bool_decide (is_Some (updateTaskSchema raw))
  | POST_tags raw => bool_decide (is_Some (createTagSchema raw))
  | _ => true
  end.

(** The database a PATCH leaves, whatever it answers. *)
Definition patch_effect (c : Context) (tid : string) (raw : json) (db : DB) : DB :=
  match updateTaskSchema raw, getAuthUser c with
  | Some body, Some u =>
      match head (task_where_id_userId tid (user_id u) db) with
      | Some _ => patch_db c tid body db
      | None => db
      end
  | _, _ => db
  end.


(** The database a DELETE leaves, whatever it answers. *)
Definition delete_effect (c : Context) (tid : string) (db : DB) : DB :=
  match getAuthUser c with
  | Some u =>
      match head (task_where_id_userId tid (user_id u) db) with
      | Some _ => (delete_task_where_id tid db).2
      | None => db
      end
  | None => db
  end.

(** The task objects, task rows and tag rows a response carries. *)
Definition response_objects (resp : Response) : list TaskJson :=
  match payload resp with
  | tasks_payload ts => ts
  | task_payload t => [t]
  | _ => []
  end.






(** The requests that only read. *)
Definition is_read (r : Request) : bool :=
  match r with
  | GET_tasks _ | GET_tasks_id _ | GET_tags => true
  | _ => false
  end.

(** ** Sample data *)

Definition signed_in (uid : string) (now : Z) (uuid : string) : Context :=
  {| getSession := Some {| user := {| user_id := uid |} |};
     Date_now := now; randomUUID := uuid |}.

Definition signed_out (now : Z) (uuid : string) : Context :=
  {| getSession := None; Date_now := now; randomUUID := uuid |}.

Definition buy_milk : Task.row :=
  {| Task.id := "t1"; Task.title := "Buy milk"; Task.description := None;
     Task.status := todo; Task.priority := medium; Task.userId := "alice";
     Task.createdAt := 10; Task.updatedAt := 10 |}.

Definition home : Tag.row :=
  {| Tag.id := "g1"; Tag.name := "home"; Tag.userId := "alice"; Tag.createdAt := 1 |}.
Definition urgent : Tag.row :=
  {| Tag.id := "g2"; Tag.name := "urgent"; Tag.userId := "alice"; Tag.createdAt := 2 |}.

(** Alice owns one task, tagged [home], and two tags. *)
Definition sample (fk : bool) (a : OnDelete) : DB :=
  {| schema := {| foreign_keys := fk; task_tag_on_delete := a |};
     task := [buy_milk];
     tag := [home; urgent];
     taskTag := [ {| TaskTag.taskId := "t1"; TaskTag.tagId := "g1" |} ] |}.

(** [PATCH /tasks/t1] with body [{ tags: l }] *)
Definition retag (l : list string) : Request :=
  PATCH_tasks_id "t1" (JObject [("tags", JArray (JString <$> l))]).

(** [POST /tasks] with body [{ title, tags: l }] *)
Definition create (title : string) (l : list string) : Request :=
  POST_tasks (JObject [("title", JString title); ("tags", JArray (JString <$> l))]).

(** * Properties *)

(** ** Lists and the statement monad *)

Section list_facts.
Context {A B : Type}.

Lemma filter_fmap_pre (P : B → Prop) `{!∀ y, Decision (P y)} (f : A → B) (l : list A) :
  filter P (f <$> l) = f <$> filter (λ x, P (f x)) l.
Proof.
  induction l as [|x l IH]; [done|].
  rewrite fmap_cons, !filter_cons. simpl.
  destruct (decide (P (f x))); rewrite IH; done.
Qed.

Lemma filter_all (P : A → Prop) `{!∀ x, Decision (P x)} (l : list A) :
  Forall P l → filter P l = l.
Proof.
  induction 1 as [|x l Hx _ IH]; [done|].
  rewrite filter_cons. destruct (decide (P x)); [by rewrite IH | done].
Qed.

Lemma filter_none (P : A → Prop) `{!∀ x, Decision (P x)} (l : list A) :
  Forall (λ x, ¬ P x) l → filter P l = [].
Proof.
  induction 1 as [|x l Hx _ IH]; [done|].
  rewrite filter_cons. destruct (decide (P x)); [done | exact IH].
Qed.

Lemma head_filter_Some (P : A → Prop) `{!∀ x, Decision (P x)} (l : list A) x :
  head (filter P l) = Some x → P x ∧ x ∈ l.
Proof.
  intros Hhd. apply (list_elem_of_filter P l x).
  destruct (filter P l) as [|y l']; simplify_eq/=. left.
Qed.

Lemma filter_filter_implied (P Q : A → Prop)
    `{!∀ x, Decision (P x)} `{!∀ x, Decision (Q x)} (l : list A) :
  (∀ x, x ∈ l → P x → Q x) → filter P (filter Q l) = filter P l.
Proof.
  induction l as [|x l IH]; intros Himp; [done|].
  rewrite (filter_cons Q), (filter_cons P).
  assert (IH' : filter P (filter Q l) = filter P l).
  { apply IH. intros y Hy. apply Himp. by right. }
  destruct (decide (Q x)) as [Hq|Hq].
  - rewrite filter_cons. destruct (decide (P x)); by rewrite IH'.
  - rewrite decide_False; [done|]. intros Hp. apply Hq, Himp; [left|done].
Qed.

End list_facts.

Lemma run_bind {A B} (m : M A) (k : A → M B) (db : DB) :
  (m ≫= k) db =
  match m db with
  | (Returned a, db') => k a db'
  | (Threw e, db') => (Threw e, db')
  end.
Proof. reflexivity. Qed.

Lemma run_ret {A} (a : A) (db : DB) : mret (M := M) a db = (Returned a, db).
Proof. reflexivity. Qed.

(** The entries built from rows that are objects have neither id nor name. *)
Lemma tagsForTask_object_rows (rows : list (TaskTag.row * Tag.row)) :
  tagsForTask (object_rows rows) = replicate (length rows) empty_entry.
Proof. induction rows as [|r rows IH]; [done|]. cbn. f_equal. exact IH. Qed.

Lemma joined_tags_empty tid db e : e ∈ joined_tags tid db → e = empty_entry.
Proof.
  unfold joined_tags. rewrite tagsForTask_object_rows. by intros [? _]%elem_of_replicate.
Qed.

(** The [Promise.all] of the listing over task rows embeds the tags of each. *)
Lemma Promise_all_map_embed (ts : list Task.row) (db : DB) :
  Promise_all_map (inl <$> ts)
    (λ t : Task.row + JoinRow Task.row TaskTag.row,
       match t with
       | inl t =>
           tagRows ← select_join (taskTag_join_tag (Task.id t));
           mret {| fields := Some t; tags := Some (tagsForTask tagRows) |}
       | inr _ => throw D1_TYPE_ERROR
       end) db
  = (Returned (embed db <$> ts), db).
Proof.
  induction ts as [|t ts IH]; [done|].
  rewrite fmap_cons. cbn [Promise_all_map]. rewrite !run_bind.
  unfold select_join at 1, select at 1. rewrite run_ret, run_bind, IH. done.
Qed.

(** ** The tag inserts of one request *)

Lemma insert_taskTag_run r db :
  insert_taskTag r db =
  if decide (accepts db r) then (Returned (), with_taskTag (taskTag db ++ [r]) db)
  else (Threw CONSTRAINT_FOREIGNKEY, db).
Proof.
  unfold insert_taskTag.
  destruct (decide (accepts db r)) as [Hok|Hno]; unfold accepts in *;
    destruct (foreign_keys (schema db)); [| done | | exfalso; by apply Hno].
  - by rewrite decide_True by by apply Hok.
  - rewrite decide_False; [done|]. intros Hin. by apply Hno.
Qed.

Lemma accepted_with_taskTag rs' db rs : accepted (with_taskTag rs' db) rs = accepted db rs.
Proof.
  induction rs as [|r rs IH]; [done|]. simpl. rewrite IH.
  destruct (decide (accepts db r)), (decide (accepts (with_taskTag rs' db) r)); done.
Qed.

Lemma with_taskTag_idemp rs rs' db : with_taskTag rs (with_taskTag rs' db) = with_taskTag rs db.
Proof. done. Qed.

Lemma for_of_insert_taskTag (tid : string) (l : list string) (db : DB) :
  let rows := TaskTag.mk tid <$> l in
  for_of l (λ tagId, insert_taskTag {| TaskTag.taskId := tid; TaskTag.tagId := tagId |}) db
  = (if decide (Forall (accepts db) rows) then Returned () else Threw CONSTRAINT_FOREIGNKEY,
     with_taskTag (taskTag db ++ accepted db rows) db).
Proof.
  revert db. induction l as [|g l IH]; intros db; simpl.
  - rewrite app_nil_r. by destruct db.
  - rewrite run_bind, insert_taskTag_run.
    destruct (decide (accepts db _)) as [Hok|Hno].
    + rewrite IH. simpl. rewrite accepted_with_taskTag, with_taskTag_idemp, <- app_assoc. simpl.
      f_equal. destruct (decide (Forall _ _)) as [H|H], (decide (Forall _ _)) as [H'|H'];
        try done.
      * exfalso. apply H'. by constructor.
      * exfalso. apply H. by inversion H'.
    + rewrite app_nil_r. rewrite decide_False; [by destruct db|].
      intros H. by inversion H.
Qed.

Lemma accepted_all db rs : Forall (accepts db) rs → accepted db rs = rs.
Proof.
  induction 1 as [|r rs Hr _ IH]; [done|]. simpl. by rewrite decide_True, IH.
Qed.

Lemma accepted_taskId db tid l :
  Forall (λ r, TaskTag.taskId r = tid) (accepted db (TaskTag.mk tid <$> l)).
Proof.
  induction l as [|g l IH]; simpl; [constructor|].
  destruct (decide _); constructor; done.
Qed.

(** ** What each handler computes *)

(** The listing: with a tag filter it answers an empty list when the join
    selects no row and throws when it selects one; without, it answers the
    task rows of the user, each with its [tags] array. *)
Lemma get_api_tasks_run c q db u :
  getAuthUser c = Some u →
  get_api_tasks c q db
  = match truthy q with
    | Some g =>
        if decide (task_join_taskTag (user_id u) g db = [])
        then (Returned (c_json (tasks_payload []) 200), db)
        else (Threw D1_TYPE_ERROR, db)
    | None =>
        (Returned (c_json (tasks_payload (embed db <$> task_where_userId (user_id u) db)) 200),
         db)
    end.
Proof.
  intros Hu. unfold get_api_tasks. rewrite Hu, run_bind.
  destruct (truthy q) as [g|].
  - rewrite run_bind. unfold select_join at 1, select at 1. rewrite run_ret.
    destruct (task_join_taskTag (user_id u) g db) as [|r rows]; [done|].
    by rewrite decide_False.
  - rewrite run_bind. unfold select at 1. rewrite run_ret, run_bind.
    by rewrite Promise_all_map_embed.
Qed.

Lemma get_api_tasks_id_run c tid db u :
  getAuthUser c = Some u →
  get_api_tasks_id c tid db
  = (Returned match head (task_where_id_userId tid (user_id u) db) with
              | None => Task_not_found
              | Some foundTask =>
                  c_json (task_payload {| fields := Some foundTask; tags := None |}) 200
              end, db).
Proof.
  intros Hu. unfold get_api_tasks_id. rewrite Hu, run_bind. unfold select.
  by destruct (head _).
Qed.

Lemma get_api_tags_run c db u :
  getAuthUser c = Some u →
  get_api_tags c db = (Returned (c_json (tags_payload (tag_where_userId (user_id u) db)) 200), db).
Proof. intros Hu. unfold get_api_tags. by rewrite Hu. Qed.

Lemma patch_rows_id tid u ts : Task.id <$> patch_rows tid u ts = Task.id <$> ts.
Proof.
  unfold patch_rows. rewrite <- list_fmap_compose. apply list_fmap_ext.
  intros _ t _. simpl. by destruct (decide _).
Qed.

Lemma accepts_patch_rows tid u db r :
  accepts (with_task (patch_rows tid u (task db)) db) r ↔ accepts db r.
Proof. unfold accepts. simpl. by rewrite patch_rows_id. Qed.

Lemma accepted_patch_rows tid u db rs :
  accepted (with_task (patch_rows tid u (task db)) db) rs = accepted db rs.
Proof.
  induction rs as [|r rs IH]; [done|]. simpl. rewrite IH.
  pose proof (accepts_patch_rows tid u db r) as Hiff.
  destruct (decide (accepts db r)), (decide (accepts (with_task _ db) r)); tauto || done.
Qed.

Lemma patch_api_tasks_id_run c tid raw body db u t0 :
  updateTaskSchema raw = Some body →
  getAuthUser c = Some u →
  head (task_where_id_userId tid (user_id u) db) = Some t0 →
  patch_api_tasks_id tid c raw db
  = let db' := patch_db c tid body db in
    (if patch_accepted tid body db
     then Returned (c_json (task_payload
                     {| fields := head (task_where_id tid db');
                        tags := Some (joined_tags tid db') |}) 200)
     else Threw CONSTRAINT_FOREIGNKEY, db').
Proof.
  intros Hraw Hu Hex. unfold patch_api_tasks_id, zValidator. rewrite Hraw, Hu.
  rewrite run_bind. unfold select at 1. rewrite Hex.
  rewrite run_bind. unfold update_task_where_id at 1.
  fold (patch_set c body). fold (patch_rows tid (patch_set c body) (task db)).
  unfold patch_db, patch_accepted.
  destruct (UpdateTask.tags body) as [l|]; rewrite run_bind.
  - rewrite run_bind. unfold delete_taskTag_where_taskId at 1.
    rewrite for_of_insert_taskTag. cbn zeta.
    rewrite accepted_with_taskTag, accepted_patch_rows. simpl taskTag.
    rewrite with_taskTag_idemp.
    set (db1 := with_task _ db).
    destruct (decide (Forall (accepts (with_taskTag _ db1)) _)) as [H|H].
    + rewrite bool_decide_eq_true_2; [done|]. eapply Forall_impl; [exact H|].
      intros r Hr. by apply (accepts_patch_rows tid (patch_set c body) db r).
    + rewrite bool_decide_eq_false_2; [done|]. intros H'. apply H.
      eapply Forall_impl; [exact H'|].
      intros r Hr. by apply (accepts_patch_rows tid (patch_set c body) db r).
  - by rewrite run_ret.
Qed.

Lemma post_api_tasks_run c raw body db u :
  createTaskSchema raw = Some body →
  getAuthUser c = Some u →
  post_api_tasks c raw db
  = if decide (randomUUID c ∈ Task.id <$> task db)
    then (Threw CONSTRAINT_PRIMARYKEY, db)
    else let db1 := with_task (task db ++ [new_task c u body]) db in
         let db' := post_db c u body db in
         (if bool_decide (Forall (accepts db1) (new_links c body))
          then Returned (c_json (task_payload (embed db' (new_task c u body))) 201)
          else Threw CONSTRAINT_FOREIGNKEY, db').
Proof.
  intros Hraw Hu. unfold post_api_tasks, zValidator. rewrite Hraw, Hu.
  fold (new_task c u body). rewrite run_bind. unfold insert_task at 1.
  change (Task.id (new_task c u body)) with (randomUUID c).
  destruct (decide (randomUUID c ∈ _)) as [|Hfresh]; [done|].
  rewrite run_bind. unfold post_db, new_links. cbn zeta.
  set (db1 := with_task _ db).
  assert (Hloop : ∀ l,
    for_of l (λ tagId, insert_taskTag {| TaskTag.taskId := randomUUID c;
                                          TaskTag.tagId := tagId |}) db1
    = (if bool_decide (Forall (accepts db1) (TaskTag.mk (randomUUID c) <$> l))
       then Returned () else Threw CONSTRAINT_FOREIGNKEY,
       with_taskTag (taskTag db ++ accepted db1 (TaskTag.mk (randomUUID c) <$> l)) db1)).
  { intros l. rewrite for_of_insert_taskTag. cbn zeta.
    by destruct (decide (Forall _ _));
      [rewrite bool_decide_eq_true_2 | rewrite bool_decide_eq_false_2]. }
  destruct (CreateTask.tags body) as [[|g l]|]; simpl default.
  - rewrite run_ret. simpl. rewrite app_nil_r. reflexivity.
  - rewrite (Hloop (g :: l)). by destruct (bool_decide _).
  - rewrite run_ret. simpl. rewrite app_nil_r. reflexivity.
Qed.

Lemma post_api_tags_run c raw body db u :
  createTagSchema raw = Some body →
  getAuthUser c = Some u →
  let newTag := {| Tag.id := randomUUID c; Tag.name := CreateTag.name body;
                   Tag.userId := user_id u; Tag.createdAt := Date_now c |} in
  post_api_tags c raw db
  = if decide (randomUUID c ∈ Tag.id <$> tag db)
    then (Threw CONSTRAINT_PRIMARYKEY, db)
    else (Returned (c_json (tag_payload newTag) 201), with_tag (tag db ++ [newTag]) db).
Proof.
  intros Hraw Hu. unfold post_api_tags, zValidator. rewrite Hraw, Hu. cbn zeta.
  rewrite run_bind. unfold insert_tag. simpl Tag.id.
  by destruct (decide (randomUUID c ∈ _)).
Qed.

Lemma delete_api_tasks_id_run c tid db u t0 :
  getAuthUser c = Some u →
  head (task_where_id_userId tid (user_id u) db) = Some t0 →
  delete_api_tasks_id c tid db
  = match delete_task_where_id tid db with
    | (Returned _, db') => (Returned (c_json (message "Task deleted successfully") 200), db')
    | (Threw e, db') => (Threw e, db')
    end.
Proof.
  intros Hu Hex. unfold delete_api_tasks_id. rewrite Hu, run_bind.
  unfold select at 1. rewrite Hex. by rewrite run_bind.
Qed.

Lemma not_found_run c tid db u :
  getAuthUser c = Some u →
  head (task_where_id_userId tid (user_id u) db) = None →
  get_api_tasks_id c tid db = (Returned Task_not_found, db)
  ∧ delete_api_tasks_id c tid db = (Returned Task_not_found, db)
  ∧ ∀ raw, patch_api_tasks_id tid c raw db
           = (Returned match updateTaskSchema raw with
                       | Some _ => Task_not_found
                       | None => c_json validation_error 400
                       end, db).
Proof.
  intros Hu Hno. split_and!.
  - by rewrite (get_api_tasks_id_run _ _ _ u), Hno.
  - unfold delete_api_tasks_id. rewrite Hu, run_bind. unfold select. by rewrite Hno.
  - intros raw. unfold patch_api_tasks_id, zValidator.
    destruct (updateTaskSchema raw); [|done].
    rewrite Hu, run_bind. unfold select. by rewrite Hno.
Qed.

(** ** The association set of a task and the tags joined to it *)

(** The join only looks at the task_tag rows of the task. *)
Lemma taskTag_join_tag_links tid db :
  taskTag_join_tag tid db
  = r ← links tid db; (λ g, (r, g)) <$> filter (λ g, TaskTag.tagId r = Tag.id g) (tag db).
Proof.
  unfold taskTag_join_tag, links.
  induction (taskTag db) as [|r rs IH]; [done|].
  rewrite filter_cons. cbn [mbind list_bind]. rewrite filter_app, IH.
  rewrite filter_fmap_pre. simpl.
  destruct (decide (TaskTag.taskId r = tid)) as [Heq|Hne].
  - cbn [mbind list_bind]. f_equal. by rewrite filter_all by by apply Forall_forall.
  - by rewrite filter_none by by apply Forall_forall.
Qed.

Lemma elem_of_taskTag_join_tag tid db r g :
  (r, g) ∈ taskTag_join_tag tid db
  ↔ r ∈ taskTag db ∧ g ∈ tag db ∧ TaskTag.taskId r = tid ∧ TaskTag.tagId r = Tag.id g.
Proof.
  unfold taskTag_join_tag. rewrite list_elem_of_filter, list_elem_of_bind. simpl. split.
  - intros (Htid & r' & Hin & Hr'). apply list_elem_of_fmap in Hin as (g' & Heq & Hg').
    simplify_eq. apply list_elem_of_filter in Hg' as [? ?]. done.
  - intros (Hr & Hg & Htid & Hid). split; [done|]. exists r. split; [|done].
    apply list_elem_of_fmap. exists g. split; [done|]. by apply list_elem_of_filter.
Qed.

Lemma elem_of_links tid db r :
  r ∈ links tid db ↔ TaskTag.taskId r = tid ∧ r ∈ taskTag db.
Proof. unfold links. by rewrite list_elem_of_filter. Qed.

(** ** PATCH /tasks/:id *)

(** A PATCH answers 200 only when its body parsed, the caller is signed in
    and owns the task, and every tag insert was accepted. *)
Lemma patch_success c tid raw db resp db' :
  fetch c (PATCH_tasks_id tid raw) db = (resp, db') →
  status resp = 200 →
  ∃ body u t0,
    updateTaskSchema raw = Some body
    ∧ getAuthUser c = Some u
    ∧ head (task_where_id_userId tid (user_id u) db) = Some t0
    ∧ patch_accepted tid body db = true
    ∧ db' = patch_db c tid body db
    ∧ resp = c_json (task_payload
                {| fields := head (task_where_id tid db');
                   tags := Some (joined_tags tid db') |}) 200.
Proof.
  unfold fetch, app. intros Hrun Hst.
  destruct (updateTaskSchema raw) as [body|] eqn:Hraw; cycle 1.
  { unfold patch_api_tasks_id, zValidator in Hrun. rewrite Hraw in Hrun.
    by simplify_eq/=. }
  destruct (getAuthUser c) as [u|] eqn:Hu; cycle 1.
  { unfold patch_api_tasks_id, zValidator in Hrun. rewrite Hraw, Hu in Hrun.
    by simplify_eq/=. }
  destruct (head (task_where_id_userId tid (user_id u) db)) as [t0|] eqn:Hex; cycle 1.
  { destruct (not_found_run c tid db u Hu Hex) as (_ & _ & Hp).
    rewrite Hp, Hraw in Hrun. by simplify_eq/=. }
  rewrite (patch_api_tasks_id_run c tid raw body db u t0 Hraw Hu Hex) in Hrun.
  cbn zeta in Hrun.
  destruct (patch_accepted tid body db) eqn:Hacc; [|by simplify_eq/=].
  injection Hrun as <- <-. by exists body, u, t0.
Qed.

Lemma links_patch_db_tags c tid body l db :
  UpdateTask.tags body = Some l →
  patch_accepted tid body db = true →
  links tid (patch_db c tid body db) = TaskTag.mk tid <$> l.
Proof.
  unfold patch_accepted, patch_db, links. intros -> Hacc%bool_decide_eq_true. simpl.
  rewrite accepted_all by done. rewrite filter_app, list_filter_filter.
  rewrite filter_none by (apply Forall_forall; intros r _; tauto).
  rewrite filter_all; [done|].
  apply Forall_forall. by intros r (g & -> & _)%list_elem_of_fmap.
Qed.

Lemma links_patch_db_other c tid body db tid' :
  tid' ≠ tid → links tid' (patch_db c tid body db) = links tid' db.
Proof.
  intros Hne. unfold patch_db, links.
  destruct (UpdateTask.tags body) as [l|]; [|done]. simpl.
  rewrite filter_app, list_filter_filter.
  rewrite (filter_none _ (accepted _ _)).
  - rewrite app_nil_r. apply list_filter_iff. intros r. split; [tauto|].
    intros Hr. split; [done|]. intros Hr'. apply Hne. by rewrite <- Hr, Hr'.
  - eapply Forall_impl; [apply accepted_taskId|]. simpl. intros r Hr Hr'.
    apply Hne. by rewrite <- Hr, Hr'.
Qed.

Lemma tag_patch_db c tid body db : tag (patch_db c tid body db) = tag db.
Proof. unfold patch_db. by destruct (UpdateTask.tags body). Qed.


Lemma task_patch_db c tid body db :
  task (patch_db c tid body db) = patch_rows tid (patch_set c body) (task db).
Proof. unfold patch_db. by destruct (UpdateTask.tags body). Qed.

Lemma listing_embed c q db tj :
  tj ∈ listing (fetch c (GET_tasks q) db).1 →
  ∃ t, t ∈ task db ∧ tj = embed db t.
Proof.
  unfold fetch, app. destruct (getAuthUser c) as [u|] eqn:Hu.
  - rewrite (get_api_tasks_run c q db u Hu). unfold listing.
    destruct (truthy q) as [g|].
    + destruct (decide _); simpl; by intros ?%elem_of_nil.
    + simpl. intros (t & -> & Ht)%list_elem_of_fmap. exists t. split; [|done].
      by apply list_elem_of_filter in Ht as [_ Ht].
  - unfold get_api_tasks. rewrite Hu. unfold listing. simpl. by intros ?%elem_of_nil.
Qed.

Lemma updateTaskSchema_object raw body :
  updateTaskSchema raw = Some body →
  ∃ o, raw = JObject o
    ∧ z_optional z_string_min1 (property "title" o) = Some (UpdateTask.title body)
    ∧ z_optional z_string (property "description" o) = Some (UpdateTask.description body)
    ∧ z_optional z_taskStatusEnum (property "status" o) = Some (UpdateTask.status body)
    ∧ z_optional z_taskPriorityEnum (property "priority" o) = Some (UpdateTask.priority body)
    ∧ z_optional z_array_string (property "tags" o) = Some (UpdateTask.tags body).
Proof.
  destruct raw as [| | | | |o]; try done. simpl. intros H. exists o.
  destruct (z_optional z_string_min1 _) as [a|]; [|done].
  destruct (z_optional z_string _) as [b|]; [|done].
  destruct (z_optional z_taskStatusEnum _) as [d|]; [|done].
  destruct (z_optional z_taskPriorityEnum _) as [e|]; [|done].
  destruct (z_optional z_array_string _) as [f|]; [|done].
  by simplify_eq/=.
Qed.

Lemma z_optional_absent {A} (p : json → option A) v (x : option A) :
  z_optional p v = Some x → v = None → x = None.
Proof. intros H ->. by simplify_eq/=. Qed.

(** X21. A successful PATCH /tasks/:id whose body carries a [tags] list
    replaces the task_tag rows of the task exactly: afterwards they are one
    per supplied id, in the supplied order (a repeated id gives repeated
    rows), the rows of every other task are as before, and where foreign
    keys are enforced every supplied id names a row of the tag table. *)
Theorem patch_replaces_task_tag_rows c tid raw body l db resp db' :
  updateTaskSchema raw = Some body →
  UpdateTask.tags body = Some l →
  fetch c (PATCH_tasks_id tid raw) db = (resp, db') →
  status resp = 200 →
  links tid db' = TaskTag.mk tid <$> l
  ∧ (∀ tid', tid' ≠ tid → links tid' db' = links tid' db)
  ∧ (foreign_keys (schema db) = true → ∀ i, i ∈ l → i ∈ Tag.id <$> tag db').
Proof.
  intros Hraw Htags Hrun Hst.
  destruct (patch_success _ _ _ _ _ _ Hrun Hst)
    as (body' & u & t0 & Hraw' & Hu & Hex & Hacc & Hdb & Hresp).
  assert (body' = body) as -> by congruence.
  split_and!.
  - rewrite Hdb. by apply links_patch_db_tags.
  - intros tid' Hne. rewrite Hdb. by apply links_patch_db_other.
  - intros Hfk i Hi. unfold patch_accepted in Hacc. rewrite Htags in Hacc.
    apply bool_decide_eq_true in Hacc.
    rewrite Forall_forall in Hacc.
    destruct (Hacc (TaskTag.mk tid i)) as [_ Hg]; [by apply list_elem_of_fmap_2 | done |].
    by rewrite Hdb, tag_patch_db.
Qed.

(** C8. A successful PATCH /tasks/:id changes, of the task rows, only the
    addressed one, and of it only what the body supplies: a property absent
    from the body keeps its value, a supplied one takes the supplied value,
    [id], [userId] and [createdAt] stay, and [updatedAt] becomes the time of
    the request whatever the body holds. The tag table is untouched, and
    without a [tags] property so is the task_tag table. *)
Theorem patch_changes_only_supplied_fields c tid o body db resp db' :
  updateTaskSchema (JObject o) = Some body →
  fetch c (PATCH_tasks_id tid (JObject o)) db = (resp, db') →
  status resp = 200 →
  length (task db') = length (task db)
  ∧ (∀ n t, task db !! n = Some t →
       ∃ t', task db' !! n = Some t'
         ∧ Task.id t' = Task.id t
         ∧ Task.userId t' = Task.userId t
         ∧ Task.createdAt t' = Task.createdAt t
         ∧ (Task.id t ≠ tid → t' = t)
         ∧ (Task.id t = tid →
              Task.updatedAt t' = Date_now c
              ∧ Task.title t' = default (Task.title t) (UpdateTask.title body)
              ∧ Task.description t' = from_option Some (Task.description t)
                                        (UpdateTask.description body)
              ∧ Task.status t' = default (Task.status t) (UpdateTask.status body)
              ∧ Task.priority t' = default (Task.priority t) (UpdateTask.priority body)
              ∧ (property "title" o = None → Task.title t' = Task.title t)
              ∧ (property "description" o = None → Task.description t' = Task.description t)
              ∧ (property "status" o = None → Task.status t' = Task.status t)
              ∧ (property "priority" o = None → Task.priority t' = Task.priority t)))
  ∧ tag db' = tag db
  ∧ (property "tags" o = None → taskTag db' = taskTag db)
  ∧ (∃ t, t ∈ task db ∧ Task.id t = tid).
Proof.
  intros Hraw Hrun Hst.
  destruct (patch_success _ _ _ _ _ _ Hrun Hst)
    as (body' & u & t0 & Hraw' & Hu & Hex & Hacc & Hdb & Hresp).
  assert (body' = body) as -> by congruence.
  destruct (updateTaskSchema_object _ _ Hraw) as (o' & [= <-] & Ht & Hd & Hs & Hp & Hg).
  split_and!.
  - rewrite Hdb, task_patch_db. unfold patch_rows. by rewrite length_fmap.
  - intros n t Hn. rewrite Hdb, task_patch_db. unfold patch_rows.
    rewrite list_lookup_fmap, Hn. simpl. eexists. split; [done|].
    destruct (decide (Task.id t = tid)) as [Heq|Hne]; simpl.
    + split_and!; try done. intros _. split_and!; try done.
      * intros Hno. by rewrite (z_optional_absent _ _ _ Ht Hno).
      * intros Hno. by rewrite (z_optional_absent _ _ _ Hd Hno).
      * intros Hno. by rewrite (z_optional_absent _ _ _ Hs Hno).
      * intros Hno. by rewrite (z_optional_absent _ _ _ Hp Hno).
    + by split_and!.
  - by rewrite Hdb, tag_patch_db.
  - intros Hno. rewrite Hdb. unfold patch_db.
    by rewrite (z_optional_absent _ _ _ Hg Hno).
  - apply head_filter_Some in Hex as [[Hid _] Hin]. by exists t0.
Qed.

(** ** POST /tasks *)

Lemma post_success c raw db resp db' :
  fetch c (POST_tasks raw) db = (resp, db') →
  status resp = 201 →
  ∃ body u,
    createTaskSchema raw = Some body
    ∧ getAuthUser c = Some u
    ∧ (randomUUID c ∉ Task.id <$> task db)
    ∧ Forall (accepts (with_task (task db ++ [new_task c u body]) db)) (new_links c body)
    ∧ db' = post_db c u body db
    ∧ resp = c_json (task_payload (embed db' (new_task c u body))) 201.
Proof.
  unfold fetch, app. intros Hrun Hst.
  destruct (createTaskSchema raw) as [body|] eqn:Hraw; cycle 1.
  { unfold post_api_tasks, zValidator in Hrun. rewrite Hraw in Hrun. by simplify_eq/=. }
  destruct (getAuthUser c) as [u|] eqn:Hu; cycle 1.
  { unfold post_api_tasks, zValidator in Hrun. rewrite Hraw, Hu in Hrun. by simplify_eq/=. }
  rewrite (post_api_tasks_run c raw body db u Hraw Hu) in Hrun.
  destruct (decide (randomUUID c ∈ _)) as [|Hfresh]; [by simplify_eq/=|].
  cbn zeta in Hrun.
  destruct (bool_decide _) eqn:Hacc; [|by simplify_eq/=].
  apply bool_decide_eq_true in Hacc. injection Hrun as <- <-. by exists body, u.
Qed.

Lemma links_post_db c u body db :
  randomUUID c ∉ (TaskTag.taskId <$> taskTag db) →
  Forall (accepts (with_task (task db ++ [new_task c u body]) db)) (new_links c body) →
  links (randomUUID c) (post_db c u body db) = new_links c body.
Proof.
  intros Hfresh Hacc. unfold links, post_db. simpl.
  rewrite accepted_all by done. rewrite filter_app.
  rewrite filter_none; cycle 1.
  { apply Forall_forall. intros r Hr Heq. apply Hfresh. rewrite <- Heq.
    by apply list_elem_of_fmap_2. }
  rewrite filter_all; [done|]. unfold new_links.
  apply Forall_forall. by intros r (g & -> & _)%list_elem_of_fmap.
Qed.

(** X22. When POST /tasks answers 201, the task_tag table is the one before
    followed by one row per supplied tag id, in the supplied order (none when
    the list is omitted or empty); these are all the rows of the new task
    when no row referred to the drawn id before, and where foreign keys are
    enforced every supplied id names a row of the tag table. *)
Theorem post_stores_supplied_links c raw body db resp db' :
  createTaskSchema raw = Some body →
  fetch c (POST_tasks raw) db = (resp, db') →
  status resp = 201 →
  let supplied := default [] (CreateTask.tags body) in
  taskTag db' = (taskTag db ++ (TaskTag.mk (randomUUID c) <$> supplied))%list
  ∧ (randomUUID c ∉ (TaskTag.taskId <$> taskTag db) →
       links (randomUUID c) db' = TaskTag.mk (randomUUID c) <$> supplied)
  ∧ (foreign_keys (schema db) = true → ∀ i, i ∈ supplied → i ∈ Tag.id <$> tag db).
Proof.
  intros Hraw Hrun Hst supplied.
  destruct (post_success _ _ _ _ _ Hrun Hst) as (body' & u & Hraw' & Hu & Hpk & Hacc & Hdb & Hresp).
  assert (body' = body) as -> by congruence.
  split_and!.
  - rewrite Hdb. unfold post_db. simpl. by rewrite accepted_all.
  - intros Hfresh. rewrite Hdb. by apply links_post_db.
  - intros Hfk i Hi. rewrite Forall_forall in Hacc.
    destruct (Hacc (TaskTag.mk (randomUUID c) i)) as [_ Hg]; [|done|done].
    by apply list_elem_of_fmap_2.
Qed.

(** ** GET /tasks *)

Lemma TaskTag_row_eq (r : TaskTag.row) a b :
  r = TaskTag.mk a b ↔ TaskTag.taskId r = a ∧ TaskTag.tagId r = b.
Proof. destruct r. simpl. split; [by intros [= -> ->] | by intros [-> ->]]. Qed.

Lemma fields_embed db (ts : list Task.row) : fields <$> (embed db <$> ts) = Some <$> ts.
Proof. rewrite <- list_fmap_compose. by apply list_fmap_ext. Qed.

(** C10. GET /tasks with an empty [tag] parameter is served exactly as
    GET /tasks without the parameter: for a signed-in user the answer lists
    all task rows of that user, in table order. *)
Theorem empty_tag_parameter_is_no_filter c db :
  fetch c (GET_tasks (Some "")) db = fetch c (GET_tasks None) db
  ∧ ∀ u, getAuthUser c = Some u →
      ∃ ts, fetch c (GET_tasks (Some "")) db = (c_json (tasks_payload ts) 200, db)
        ∧ fields <$> ts = Some <$> filter (λ t, Task.userId t = user_id u) (task db).
Proof.
  split; [done|]. intros u Hu. eexists. unfold fetch, app.
  rewrite (get_api_tasks_run c (Some "") db u Hu). split; [done|].
  by rewrite fields_embed.
Qed.

(** ** Requests without a session *)

(** C7 (as amended). A request without a session changes no row and gets an
    answer fixed by the request alone, whatever the tables hold: 401
    Unauthorized, except that POST /tasks, PATCH /tasks/:id and POST /tags
    answer 400 when their body fails validation, because the validator
    runs before the session check. *)
Theorem request_without_session c r db :
  getSession c = None →
  fetch c r db
  = (if passes_validator r then Unauthorized else c_json validation_error 400, db)
  ∧ ∀ db2, (fetch c r db2).1 = (fetch c r db).1.
Proof.
  intros Hs.
  assert (Hu : getAuthUser c = None) by (unfold getAuthUser; by rewrite Hs).
  assert (Hall : ∀ d, fetch c r d
    = (if passes_validator r then Unauthorized else c_json validation_error 400, d)).
  { intros d. unfold fetch, app.
    destruct r as [q|tid|raw|tid raw| |raw|tid]; simpl.
    - unfold get_api_tasks. by rewrite Hu.
    - unfold get_api_tasks_id. by rewrite Hu.
    - unfold post_api_tasks, zValidator.
      destruct (createTaskSchema raw); [by rewrite Hu|done].
    - unfold patch_api_tasks_id, zValidator.
      destruct (updateTaskSchema raw); [by rewrite Hu|done].
    - unfold get_api_tags. by rewrite Hu.
    - unfold post_api_tags, zValidator.
      destruct (createTagSchema raw); [by rewrite Hu|done].
    - unfold delete_api_tasks_id. by rewrite Hu. }
  split; [apply Hall|]. intros db2. by rewrite !Hall.
Qed.

(** ** Repeating a request *)

Lemma fetch_patch_db c tid raw db :
  (fetch c (PATCH_tasks_id tid raw) db).2 = patch_effect c tid raw db.
Proof.
  unfold fetch, app, patch_effect.
  destruct (updateTaskSchema raw) as [body|] eqn:Hraw; cycle 1.
  { unfold patch_api_tasks_id, zValidator. by rewrite Hraw. }
  destruct (getAuthUser c) as [u|] eqn:Hu; cycle 1.
  { unfold patch_api_tasks_id, zValidator. by rewrite Hraw, Hu. }
  destruct (head (task_where_id_userId tid (user_id u) db)) as [t0|] eqn:Hex.
  - rewrite (patch_api_tasks_id_run c tid raw body db u t0 Hraw Hu Hex). cbn zeta.
    by destruct (patch_accepted tid body db).
  - destruct (not_found_run c tid db u Hu Hex) as (_ & _ & Hp). by rewrite Hp.
Qed.







(** ** DELETE /tasks/:id *)

Lemma fetch_delete_db c tid db :
  (fetch c (DELETE_tasks_id tid) db).2 = delete_effect c tid db.
Proof.
  unfold fetch, app, delete_effect.
  destruct (getAuthUser c) as [u|] eqn:Hu; cycle 1.
  { unfold delete_api_tasks_id. by rewrite Hu. }
  destruct (head (task_where_id_userId tid (user_id u) db)) as [t0|] eqn:Hex.
  - rewrite (delete_api_tasks_id_run c tid db u t0 Hu Hex).
    by destruct (delete_task_where_id tid db) as [[[]|e] d].
  - destruct (not_found_run c tid db u Hu Hex) as (_ & Hd & _). by rewrite Hd.
Qed.

(** The statement either leaves the database as it was or leaves no task
    row with that id. *)
Lemma delete_task_where_id_cases tid db :
  (delete_task_where_id tid db).2 = db
  ∨ task (delete_task_where_id tid db).2 = filter (λ t, Task.id t ≠ tid) (task db).
Proof.
  unfold delete_task_where_id.
  destruct (decide (task_where_id tid db = [])); [by left|].
  destruct (foreign_keys (schema db)); [|by right].
  destruct (task_tag_on_delete (schema db)); [|by right].
  destruct (decide (filter _ (taskTag db) = [])); [by right | by left].
Qed.

Lemma head_where_after_delete tid uid ts :
  head (filter (λ t, Task.id t = tid ∧ Task.userId t = uid)
          (filter (λ t, Task.id t ≠ tid) ts)) = None.
Proof.
  rewrite list_filter_filter, filter_none; [done|].
  apply Forall_forall. intros t _. tauto.
Qed.



Lemma elem_of_task_join_taskTag uid g db t r :
  (t, r) ∈ task_join_taskTag uid g db
  ↔ t ∈ task db ∧ r ∈ taskTag db ∧ Task.id t = TaskTag.taskId r
    ∧ Task.userId t = uid ∧ TaskTag.tagId r = g.
Proof.
  unfold task_join_taskTag. rewrite list_elem_of_filter, list_elem_of_bind. simpl. split.
  - intros ([Hown Hg] & t' & Hin & Ht'). apply list_elem_of_fmap in Hin as (r' & Heq & Hr').
    simplify_eq. apply list_elem_of_filter in Hr' as [? ?]. done.
  - intros (Ht & Hr & Hid & Hown & Hg). split; [done|]. exists t. split; [|done].
    apply list_elem_of_fmap. exists r. split; [done|]. by apply list_elem_of_filter.
Qed.

(** A DELETE answers 200 only when the caller is signed in and owns the
    task, and the statement went through. *)
Lemma delete_success c tid db resp db' :
  fetch c (DELETE_tasks_id tid) db = (resp, db') →
  status resp = 200 →
  ∃ u t0,
    getAuthUser c = Some u
    ∧ head (task_where_id_userId tid (user_id u) db) = Some t0
    ∧ delete_task_where_id tid db = (Returned (), db').
Proof.
  unfold fetch, app. intros Hrun Hst.
  destruct (getAuthUser c) as [u|] eqn:Hu; cycle 1.
  { unfold delete_api_tasks_id in Hrun. rewrite Hu in Hrun. by simplify_eq/=. }
  destruct (head (task_where_id_userId tid (user_id u) db)) as [t0|] eqn:Hex; cycle 1.
  { destruct (not_found_run c tid db u Hu Hex) as (_ & Hd & _).
    rewrite Hd in Hrun. by simplify_eq/=. }
  rewrite (delete_api_tasks_id_run c tid db u t0 Hu Hex) in Hrun.
  destruct (delete_task_where_id tid db) as [[[]|e] d]; [|by simplify_eq/=].
  injection Hrun as _ <-. by exists u, t0.
Qed.

(** C5. Where foreign keys are enforced, a DELETE /tasks/:id answered 200
    removes the task rows with that id and every task_tag row that refers
    to it, and nothing else; afterwards a signed-in caller's GET for that id
    answers 404, no listing carries a task with that id, and neither join
    from which the handlers read the tags of a task and the tasks of a tag
    returns a row of the deleted task. *)
Theorem successful_delete_removes_task_tag_rows c tid db resp db' :
  foreign_keys (schema db) = true →
  fetch c (DELETE_tasks_id tid) db = (resp, db') →
  status resp = 200 →
  task db' = filter (λ t, Task.id t ≠ tid) (task db)
  ∧ taskTag db' = filter (λ r, TaskTag.taskId r ≠ tid) (taskTag db)
  ∧ tag db' = tag db
  ∧ links tid db' = []
  ∧ (∀ c' u', getAuthUser c' = Some u' →
       fetch c' (GET_tasks_id tid) db' = (Task_not_found, db'))
  ∧ (∀ c' q tj t, tj ∈ listing (fetch c' (GET_tasks q) db').1 →
       fields tj = Some t → Task.id t ≠ tid)
  ∧ (∀ tid' r, r ∈ taskTag_join_tag tid' db' → TaskTag.taskId r.1 ≠ tid)
  ∧ (∀ uid g r, r ∈ task_join_taskTag uid g db' →
       Task.id r.1 ≠ tid ∧ TaskTag.taskId r.2 ≠ tid).
Proof.
  intros Hfk Hrun Hst.
  destruct (delete_success _ _ _ _ _ Hrun Hst) as (u & t0 & Hu & Hex & Hdel).
  apply head_filter_Some in Hex as [[Hid Hown] Hin].
  assert (Hrows : task db' = filter (λ t, Task.id t ≠ tid) (task db)
                  ∧ taskTag db' = filter (λ r, TaskTag.taskId r ≠ tid) (taskTag db)
                  ∧ tag db' = tag db).
  { unfold delete_task_where_id in Hdel. rewrite Hfk in Hdel.
    rewrite decide_False in Hdel; cycle 1.
    { intros Hnil. by apply (filter_nil_not_elem_of _ _ t0 Hnil). }
    destruct (task_tag_on_delete (schema db)).
    - destruct (decide (filter _ (taskTag db) = [])) as [Hnil|]; [|done].
      injection Hdel as <-. simpl. split_and!; [done| |done].
      symmetry. apply filter_all, Forall_forall. intros r Hr Heq.
      by apply (filter_nil_not_elem_of _ _ r Hnil).
    - injection Hdel as <-. by split_and!. }
  destruct Hrows as (Ht & Hl & Hg).
  assert (Hgone : ∀ t, t ∈ task db' → Task.id t ≠ tid).
  { intros t. rewrite Ht. by intros [? _]%list_elem_of_filter. }
  assert (Hnone : ∀ r, r ∈ taskTag db' → TaskTag.taskId r ≠ tid).
  { intros r. rewrite Hl. by intros [? _]%list_elem_of_filter. }
  split_and!; try done.
  - unfold links. rewrite Hl, list_filter_filter, filter_none; [done|].
    apply Forall_forall. intros r _. tauto.
  - intros c' u' Hu'. unfold fetch, app. rewrite (get_api_tasks_id_run c' tid db' u' Hu').
    unfold task_where_id_userId. by rewrite Ht, head_where_after_delete.
  - intros c' q tj t (t' & Hin' & ->)%listing_embed [= <-]. by apply Hgone.
  - intros tid' [r g] (Hr & _)%elem_of_taskTag_join_tag. by apply Hnone.
  - intros uid g [t r] (Ht' & Hr & _)%elem_of_task_join_taskTag. simpl.
    split; [by apply Hgone | by apply Hnone].
Qed.

(** ** Two users *)


Lemma unique_id (ts : list Task.row) t t' :
  NoDup (Task.id <$> ts) → t ∈ ts → t' ∈ ts → Task.id t = Task.id t' → t = t'.
Proof.
  intros Hnd (i & Hi)%list_elem_of_lookup (j & Hj)%list_elem_of_lookup Heq.
  assert (i = j) as ->; [|congruence].
  eapply (NoDup_lookup _ _ _ _ Hnd); rewrite list_lookup_fmap.
  - by rewrite Hi.
  - rewrite Hj. simpl. by rewrite Heq.
Qed.










Lemma patched_row_found c tid body db u t0 :
  NoDup (Task.id <$> task db) →
  head (task_where_id_userId tid (user_id u) db) = Some t0 →
  ∃ t, head (task_where_id tid (patch_db c tid body db)) = Some t
    ∧ Task.id t = tid ∧ Task.userId t = user_id u.
Proof.
  intros Hnd Hex. apply head_filter_Some in Hex as [[Hid Hown] Hin].
  assert (Hmem : apply_set (patch_set c body) t0 ∈ task_where_id tid (patch_db c tid body db)).
  { unfold task_where_id. rewrite task_patch_db. apply list_elem_of_filter. split; [done|].
    unfold patch_rows. apply list_elem_of_fmap. exists t0. by rewrite decide_True. }
  destruct (head (task_where_id tid (patch_db c tid body db))) as [t|] eqn:Hhd; cycle 1.
  { apply head_None in Hhd. rewrite Hhd in Hmem. by apply elem_of_nil in Hmem. }
  exists t. split; [done|]. apply head_filter_Some in Hhd as [Hidt Hint].
  split; [done|]. rewrite task_patch_db in Hint. unfold patch_rows in Hint.
  apply list_elem_of_fmap in Hint as (t1 & -> & Ht1).
  assert (Task.id t1 = tid) as Hid1 by (revert Hidt; by destruct (decide _)).
  assert (t1 = t0) as -> by (apply (unique_id (task db)); [done..|]; by rewrite Hid1, Hid).
  by rewrite decide_True.
Qed.


(** ** The primary key of [task] *)

(** No request makes two task rows share an id. *)
Lemma fetch_keeps_task_ids_distinct c r db :
  NoDup (Task.id <$> task db) → NoDup (Task.id <$> task (fetch c r db).2).
Proof.
  intros Hnd. destruct r as [q|tid|raw|tid raw| |raw|tid].
  - unfold fetch, app. destruct (getAuthUser c) as [u|] eqn:Hu.
    + rewrite (get_api_tasks_run c q db u Hu).
      destruct (truthy q); [by destruct (decide _)|done].
    + unfold get_api_tasks. by rewrite Hu.
  - unfold fetch, app. destruct (getAuthUser c) as [u|] eqn:Hu.
    + by rewrite (get_api_tasks_id_run c tid db u Hu).
    + unfold get_api_tasks_id. by rewrite Hu.
  - unfold fetch, app.
    destruct (createTaskSchema raw) as [body|] eqn:Hraw; cycle 1.
    { unfold post_api_tasks, zValidator. by rewrite Hraw. }
    destruct (getAuthUser c) as [u|] eqn:Hu; cycle 1.
    { unfold post_api_tasks, zValidator. by rewrite Hraw, Hu. }
    rewrite (post_api_tasks_run c raw body db u Hraw Hu).
    destruct (decide (randomUUID c ∈ _)) as [|Hfresh]; [done|]. cbn zeta.
    assert (NoDup (Task.id <$> task (post_db c u body db))).
    { unfold post_db. simpl. rewrite fmap_app. apply NoDup_app. split_and!; [done| |].
      - intros i Hi ->%list_elem_of_singleton. done.
      - apply NoDup_singleton. }
    by destruct (bool_decide _).
  - rewrite fetch_patch_db. unfold patch_effect.
    destruct (updateTaskSchema raw) as [body|]; [|done].
    destruct (getAuthUser c) as [u|]; [|done].
    destruct (head _); [|done].
    by rewrite task_patch_db, patch_rows_id.
  - unfold fetch, app. destruct (getAuthUser c) as [u|] eqn:Hu.
    + by rewrite (get_api_tags_run c db u Hu).
    + unfold get_api_tags. by rewrite Hu.
  - unfold fetch, app.
    destruct (createTagSchema raw) as [body|] eqn:Hraw; cycle 1.
    { unfold post_api_tags, zValidator. by rewrite Hraw. }
    destruct (getAuthUser c) as [u|] eqn:Hu; cycle 1.
    { unfold post_api_tags, zValidator. by rewrite Hraw, Hu. }
    rewrite (post_api_tags_run c raw body db u Hraw Hu).
    by destruct (decide (randomUUID c ∈ _)).
  - rewrite fetch_delete_db. unfold delete_effect.
    destruct (getAuthUser c) as [u|]; [|done].
    destruct (head _); [|done].
    destruct (delete_task_where_id_cases tid db) as [->| ->]; [done|].
    apply NoDup_fmap_2_strong; [|by apply NoDup_filter, (NoDup_fmap_1 Task.id)].
    intros t t' Ht%list_elem_of_filter Ht'%list_elem_of_filter Heq.
    apply (unique_id (task db)); tauto.
Qed.

(** * Worked requests *)

(** C1, at the failing request. Alice replaces the tags of her task by
    [g2]. The PATCH answers 200 and the task_tag rows of the task are
    replaced by the supplied one; the following GET /tasks/t1 answers with
    the task row and no [tags] array, so the new set cannot be read from
    it. The PATCH response and the listing do carry a [tags] array, whose
    one entry has neither id nor name. *)
Theorem patch_then_get_by_id_shows_no_tags :
  let patched := fetch (signed_in "alice" 20 "") (retag ["g2"]) (sample true Cascade) in
  status patched.1 = 200
  ∧ taskTag patched.2 = [ {| TaskTag.taskId := "t1"; TaskTag.tagId := "g2" |} ]
  ∧ (fetch (signed_in "alice" 21 "") (GET_tasks_id "t1") patched.2).1
    = c_json (task_payload
        {| fields := Some {| Task.id := "t1"; Task.title := "Buy milk";
                             Task.description := None; Task.status := todo;
                             Task.priority := medium; Task.userId := "alice";
                             Task.createdAt := 10; Task.updatedAt := 20 |};
           tags := None |}) 200
  ∧ tags <$> response_objects patched.1
    = [Some [ {| entry_id := None; entry_name := None |} ]]
  ∧ tags <$> listing (fetch (signed_in "alice" 21 "") (GET_tasks None) patched.2).1
    = [Some [ {| entry_id := None; entry_name := None |} ]].
Proof. vm_compute. by split_and!. Qed.

(** X21, instance: the same replacement. *)
Lemma patch_replaces_task_tag_rows_witness :
  let c := signed_in "alice" 20 "" in
  let raw := JObject [("tags", JArray [JString "g2"])] in
  let out := fetch c (PATCH_tasks_id "t1" raw) (sample true Cascade) in
  (is_Some (updateTaskSchema raw) ∧ status out.1 = 200)
  ∧ links "t1" out.2 = [ {| TaskTag.taskId := "t1"; TaskTag.tagId := "g2" |} ].
Proof.
  cbn zeta. split; [split; [by eexists | reflexivity]|].
  refine (proj1 (patch_replaces_task_tag_rows
                   (signed_in "alice" 20 "") "t1" (JObject [("tags", JArray [JString "g2"])])
                   (UpdateTask.mk None None None None (Some ["g2"])) ["g2"]
                   (sample true Cascade) _ _ _ _ _ _));
    reflexivity.
Defined.

(** C2, at the failing request. The tag [home] is joined to Alice's task.
    GET /tasks/t1 answers with the bare row and no [tags] array; the
    listing, the PATCH response and the POST response carry a [tags] array
    with one entry for the joined tag, and the entry has neither the id nor
    the name of the tag. *)
Theorem get_task_by_id_omits_tags :
  let db := sample true Cascade in
  let c := signed_in "alice" 20 "t2" in
  taskTag_join_tag "t1" db = [ ({| TaskTag.taskId := "t1"; TaskTag.tagId := "g1" |}, home) ]
  ∧ (fetch c (GET_tasks_id "t1") db).1
    = c_json (task_payload {| fields := Some buy_milk; tags := None |}) 200
  ∧ tags <$> response_objects (fetch c (GET_tasks None) db).1
    = [Some [ {| entry_id := None; entry_name := None |} ]]
  ∧ tags <$> response_objects (fetch c (retag ["g1"]) db).1
    = [Some [ {| entry_id := None; entry_name := None |} ]]
  ∧ tags <$> response_objects (fetch c (create "Call mum" ["g1"]) db).1
    = [Some [ {| entry_id := None; entry_name := None |} ]].
Proof. vm_compute. by split_and!. Qed.

(** The reads that carry a [tags] array build it from the join for the id of
    the task; GET /tasks/:id never has a [tags] array. *)
Lemma reads_and_joined_tags c r db tj :
  tj ∈ response_objects (fetch c r db).1 →
  match r with
  | GET_tasks_id _ => tags tj = None
  | _ => ∃ tid, tags tj = Some (joined_tags tid (fetch c r db).2)
           ∧ (∀ t, fields tj = Some t → Task.id t = tid)
  end.
Proof.
  unfold fetch, app.
  destruct r as [q|tid|raw|tid raw| |raw|tid].
  - destruct (getAuthUser c) as [u|] eqn:Hu.
    + rewrite (get_api_tasks_run c q db u Hu). unfold response_objects.
      destruct (truthy q); [destruct (decide _); by intros ?%elem_of_nil|]. simpl.
      intros (t & -> & _)%list_elem_of_fmap. exists (Task.id t). split; [done|].
      by intros t' [= ->].
    + unfold get_api_tasks. rewrite Hu. by intros ?%elem_of_nil.
  - destruct (getAuthUser c) as [u|] eqn:Hu.
    + rewrite (get_api_tasks_id_run c tid db u Hu). unfold response_objects.
      destruct (head _); simpl; [by intros ->%list_elem_of_singleton | by intros ?%elem_of_nil].
    + unfold get_api_tasks_id. rewrite Hu. by intros ?%elem_of_nil.
  - destruct (createTaskSchema raw) as [body|] eqn:Hraw; cycle 1.
    { unfold post_api_tasks, zValidator. rewrite Hraw. by intros ?%elem_of_nil. }
    destruct (getAuthUser c) as [u|] eqn:Hu; cycle 1.
    { unfold post_api_tasks, zValidator. rewrite Hraw, Hu. by intros ?%elem_of_nil. }
    rewrite (post_api_tasks_run c raw body db u Hraw Hu).
    destruct (decide (randomUUID c ∈ _)); [by intros ?%elem_of_nil|]. cbn zeta.
    destruct (bool_decide _); [|by intros ?%elem_of_nil].
    unfold response_objects. simpl. intros ->%list_elem_of_singleton.
    exists (randomUUID c). split; [done|]. by intros t' [= <-].
  - destruct (updateTaskSchema raw) as [body|] eqn:Hraw; cycle 1.
    { unfold patch_api_tasks_id, zValidator. rewrite Hraw. by intros ?%elem_of_nil. }
    destruct (getAuthUser c) as [u|] eqn:Hu; cycle 1.
    { unfold patch_api_tasks_id, zValidator. rewrite Hraw, Hu. by intros ?%elem_of_nil. }
    destruct (head (task_where_id_userId tid (user_id u) db)) as [t0|] eqn:Hex; cycle 1.
    { destruct (not_found_run c tid db u Hu Hex) as (_ & _ & Hp). rewrite Hp, Hraw.
      by intros ?%elem_of_nil. }
    rewrite (patch_api_tasks_id_run c tid raw body db u t0 Hraw Hu Hex). cbn zeta.
    destruct (patch_accepted tid body db); [|by intros ?%elem_of_nil].
    unfold response_objects. simpl. intros ->%list_elem_of_singleton.
    exists tid. split; [done|]. simpl. intros t Ht.
    by apply head_filter_Some in Ht as [? _].
  - destruct (getAuthUser c) as [u|] eqn:Hu.
    + rewrite (get_api_tags_run c db u Hu). by intros ?%elem_of_nil.
    + unfold get_api_tags. rewrite Hu. by intros ?%elem_of_nil.
  - destruct (createTagSchema raw) as [body|] eqn:Hraw; cycle 1.
    { unfold post_api_tags, zValidator. rewrite Hraw. by intros ?%elem_of_nil. }
    destruct (getAuthUser c) as [u|] eqn:Hu; cycle 1.
    { unfold post_api_tags, zValidator. rewrite Hraw, Hu. by intros ?%elem_of_nil. }
    rewrite (post_api_tags_run c raw body db u Hraw Hu).
    destruct (decide (randomUUID c ∈ _)); by intros ?%elem_of_nil.
  - destruct (getAuthUser c) as [u|] eqn:Hu; cycle 1.
    { unfold delete_api_tasks_id. rewrite Hu. by intros ?%elem_of_nil. }
    destruct (head (task_where_id_userId tid (user_id u) db)) as [t0|] eqn:Hex; cycle 1.
    { destruct (not_found_run c tid db u Hu Hex) as (_ & Hd & _). rewrite Hd.
      by intros ?%elem_of_nil. }
    rewrite (delete_api_tasks_id_run c tid db u t0 Hu Hex).
    destruct (delete_task_where_id tid db) as [[[]|e] d]; by intros ?%elem_of_nil.
Qed.

(** C3, at the failing request. Alice creates a task with her two tags.
    The answer is 201 and both task_tag rows are stored and joined to their
    tag rows; the [tags] array of the returned task has two entries, neither
    with an id or a name, so no supplied id can be read from it. *)
Theorem post_returns_tags_without_ids :
  let out := fetch (signed_in "alice" 20 "t2") (create "Call mum" ["g2"; "g1"])
               (sample true Cascade) in
  status out.1 = 201
  ∧ links "t2" out.2 = [ {| TaskTag.taskId := "t2"; TaskTag.tagId := "g2" |};
                         {| TaskTag.taskId := "t2"; TaskTag.tagId := "g1" |} ]
  ∧ taskTag_join_tag "t2" out.2
    = [ ({| TaskTag.taskId := "t2"; TaskTag.tagId := "g2" |}, urgent);
        ({| TaskTag.taskId := "t2"; TaskTag.tagId := "g1" |}, home) ]
  ∧ tags <$> response_objects out.1
    = [Some [ {| entry_id := None; entry_name := None |};
              {| entry_id := None; entry_name := None |} ]].
Proof. vm_compute. by split_and!. Qed.

(** X22, instance: the rows of the same request. *)
Lemma post_stores_supplied_links_witness :
  let c := signed_in "alice" 20 "t2" in
  let raw := JObject [("title", JString "Call mum");
                      ("tags", JArray [JString "g2"; JString "g1"])] in
  let out := fetch c (POST_tasks raw) (sample true Cascade) in
  (is_Some (createTaskSchema raw) ∧ status out.1 = 201)
  ∧ taskTag out.2 = [ {| TaskTag.taskId := "t1"; TaskTag.tagId := "g1" |};
                      {| TaskTag.taskId := "t2"; TaskTag.tagId := "g2" |};
                      {| TaskTag.taskId := "t2"; TaskTag.tagId := "g1" |} ].
Proof.
  cbn zeta. split; [split; [by eexists | reflexivity]|].
  exact (proj1 (post_stores_supplied_links
                  (signed_in "alice" 20 "t2")
                  (JObject [("title", JString "Call mum");
                            ("tags", JArray [JString "g2"; JString "g1"])])
                  (CreateTask.mk "Call mum" None todo medium (Some ["g2"; "g1"]))
                  (sample true Cascade) _ _ eq_refl eq_refl eq_refl)).
Defined.

(** C4, at the failing request. Alice's task [t1] has a task_tag row for
    [g1], and the join of the filtered listing selects it; GET /tasks?tag=g1
    answers 500 and lists nothing. For [g2], which no task carries, the
    answer is 200 with an empty list. *)
Theorem tag_filtered_listing_answers_500 :
  let c := signed_in "alice" 20 "" in
  let db := sample true Cascade in
  task_join_taskTag "alice" "g1" db
  = [ (buy_milk, {| TaskTag.taskId := "t1"; TaskTag.tagId := "g1" |}) ]
  ∧ fetch c (GET_tasks (Some "g1")) db = (c_json internal_server_error 500, db)
  ∧ fetch c (GET_tasks (Some "g2")) db = (c_json (tasks_payload []) 200, db).
Proof. vm_compute. by split_and!. Qed.

(** C5, instance: Alice deletes her tagged task where the reference cascades. *)
Lemma successful_delete_removes_task_tag_rows_witness :
  let out := fetch (signed_in "alice" 20 "") (DELETE_tasks_id "t1") (sample true Cascade) in
  (foreign_keys (schema (sample true Cascade)) = true ∧ status out.1 = 200)
  ∧ task out.2 = [] ∧ taskTag out.2 = [].
Proof.
  cbn zeta. split; [split; reflexivity|].
  destruct (successful_delete_removes_task_tag_rows (signed_in "alice" 20 "") "t1"
              (sample true Cascade) _ _ eq_refl eq_refl eq_refl) as (Ht & Hl & _).
  split; [exact Ht | exact Hl].
Defined.

(** With the task_tag table of migration 0003 ([ON DELETE NO ACTION]) and
    foreign keys enforced, the DELETE of a task that has task_tag rows is
    rejected: the answer is 500 and nothing is deleted. *)
Lemma delete_of_tagged_task_under_no_action :
  fetch (signed_in "alice" 20 "") (DELETE_tasks_id "t1") (sample true NoAction)
  = (c_json internal_server_error 500, sample true NoAction).
Proof. reflexivity. Qed.



(** C7, counterexample. A POST /tasks without a session and with a body
    that lacks the title is answered 400, not 401. *)
Lemma invalid_body_without_session_gets_400 :
  fetch (signed_out 20 "t2") (POST_tasks (JObject [])) (sample true Cascade)
  = (c_json validation_error 400, sample true Cascade).
Proof. reflexivity. Qed.

(** C7, instance: a listing without a session. *)
Lemma request_without_session_witness :
  getSession (signed_out 20 "") = None
  ∧ fetch (signed_out 20 "") (GET_tasks None) (sample true Cascade)
    = (Unauthorized, sample true Cascade).
Proof.
  split; [reflexivity|].
  exact (proj1 (request_without_session (signed_out 20 "") (GET_tasks None)
                  (sample true Cascade) eq_refl)).
Defined.

(** C8, instance: Alice renames her task; nothing else of it changes and the
    task_tag table is left alone. *)
Lemma patch_changes_only_supplied_fields_witness :
  let c := signed_in "alice" 20 "" in
  let o := [("title", JString "Buy oat milk")] in
  let out := fetch c (PATCH_tasks_id "t1" (JObject o)) (sample true Cascade) in
  (is_Some (updateTaskSchema (JObject o)) ∧ status out.1 = 200)
  ∧ length (task out.2) = 1
  ∧ taskTag out.2 = taskTag (sample true Cascade).
Proof.
  cbn zeta. split; [split; [by eexists | reflexivity]|].
  destruct (patch_changes_only_supplied_fields (signed_in "alice" 20 "") "t1"
              [("title", JString "Buy oat milk")]
              (UpdateTask.mk (Some "Buy oat milk") None None None None)
              (sample true Cascade) _ _ eq_refl eq_refl eq_refl)
    as (Hlen & _ & _ & Htt & _).
  split; [exact Hlen | exact (Htt eq_refl)].
Defined.



(** C10, instance: Alice lists with [?tag=]. *)
Lemma empty_tag_parameter_is_no_filter_witness :
  getAuthUser (signed_in "alice" 20 "") = Some {| user_id := "alice" |}
  ∧ ∃ ts, fetch (signed_in "alice" 20 "") (GET_tasks (Some "")) (sample true Cascade)
          = (c_json (tasks_payload ts) 200, sample true Cascade)
      ∧ fields <$> ts = [Some buy_milk].
Proof.
  split; [reflexivity|].
  destruct (proj2 (empty_tag_parameter_is_no_filter (signed_in "alice" 20 "")
                     (sample true Cascade)) {| user_id := "alice" |} eq_refl)
    as (ts & Hrun & Hf).
  exists ts. split; [exact Hrun | exact Hf].
Defined.

(** * Further properties of the handlers *)

(** ** What one request can do to the database *)

(** Closes the case of a request that wrote nothing. *)
Local Ltac unchanged H :=
  left; injection H as <- <-; simpl;
  split_and!;
    [done | done | by intros
    | intros; try done;
      first [left; eexists; by (left + right) | right; by eexists]].

(** Either the request leaves the database as it was, or it is one of the
    four writes, each with the answers it can give. *)
Lemma fetch_effect c r db resp db' :
  fetch c r db = (resp, db') →
  (db' = db ∧ status resp ≠ 201
   ∧ (status resp = 200 → is_read r = true)
   ∧ (status resp = 500 →
        (∃ raw, r = POST_tasks raw ∨ r = POST_tags raw) ∨ ∃ g, r = GET_tasks (Some g)))
  ∨ (∃ raw body u,
       r = POST_tasks raw ∧ createTaskSchema raw = Some body ∧ getAuthUser c = Some u
       ∧ (randomUUID c ∉ Task.id <$> task db)
       ∧ db' = post_db c u body db
       ∧ (Forall (accepts (with_task (task db ++ [new_task c u body]) db)) (new_links c body)
          ∧ resp = c_json (task_payload (embed db' (new_task c u body))) 201
          ∨ ¬ Forall (accepts (with_task (task db ++ [new_task c u body]) db))
                (new_links c body)
            ∧ resp = c_json internal_server_error 500))
  ∨ (∃ tid raw body u t0,
       r = PATCH_tasks_id tid raw ∧ updateTaskSchema raw = Some body
       ∧ getAuthUser c = Some u
       ∧ head (task_where_id_userId tid (user_id u) db) = Some t0
       ∧ db' = patch_db c tid body db
       ∧ (patch_accepted tid body db = true
          ∧ resp = c_json (task_payload
                     {| fields := head (task_where_id tid db');
                        tags := Some (joined_tags tid db') |}) 200
          ∨ patch_accepted tid body db = false
            ∧ resp = c_json internal_server_error 500))
  ∨ (∃ raw body u,
       r = POST_tags raw ∧ createTagSchema raw = Some body ∧ getAuthUser c = Some u
       ∧ (randomUUID c ∉ Tag.id <$> tag db)
       ∧ let newTag := {| Tag.id := randomUUID c; Tag.name := CreateTag.name body;
                          Tag.userId := user_id u; Tag.createdAt := Date_now c |} in
         db' = with_tag (tag db ++ [newTag]) db
         ∧ resp = c_json (tag_payload newTag) 201)
  ∨ (∃ tid u t0,
       r = DELETE_tasks_id tid ∧ getAuthUser c = Some u
       ∧ head (task_where_id_userId tid (user_id u) db) = Some t0
       ∧ db' = (delete_task_where_id tid db).2
       ∧ (resp = c_json (message "Task deleted successfully") 200
          ∧ (delete_task_where_id tid db).1 = Returned ()
          ∨ resp = c_json internal_server_error 500 ∧ db' = db)).
Proof.
  unfold fetch, app. intros Hrun.
  destruct r as [q|tid|raw|tid raw| |raw|tid].
  - destruct (getAuthUser c) as [u|] eqn:Hu.
    + rewrite (get_api_tasks_run c q db u Hu) in Hrun.
      destruct q as [g|]; [|unchanged Hrun].
      destruct (truthy (Some g)); [destruct (decide _)|]; unchanged Hrun.
    + unfold get_api_tasks in Hrun. rewrite Hu in Hrun. unchanged Hrun.
  - destruct (getAuthUser c) as [u|] eqn:Hu.
    + rewrite (get_api_tasks_id_run c tid db u Hu) in Hrun.
      destruct (head _); unchanged Hrun.
    + unfold get_api_tasks_id in Hrun. rewrite Hu in Hrun. unchanged Hrun.
  - destruct (createTaskSchema raw) as [body|] eqn:Hraw; cycle 1.
    { unfold post_api_tasks, zValidator in Hrun. rewrite Hraw in Hrun. unchanged Hrun. }
    destruct (getAuthUser c) as [u|] eqn:Hu; cycle 1.
    { unfold post_api_tasks, zValidator in Hrun. rewrite Hraw, Hu in Hrun. unchanged Hrun. }
    rewrite (post_api_tasks_run c raw body db u Hraw Hu) in Hrun.
    destruct (decide (randomUUID c ∈ _)) as [|Hfresh]; [unchanged Hrun|].
    right. left. exists raw, body, u. cbn zeta in Hrun.
    destruct (bool_decide _) eqn:Hacc; injection Hrun as <- <-.
    + apply bool_decide_eq_true in Hacc. split_and!; try done. by left.
    + apply bool_decide_eq_false in Hacc. split_and!; try done. by right.
  - destruct (updateTaskSchema raw) as [body|] eqn:Hraw; cycle 1.
    { unfold patch_api_tasks_id, zValidator in Hrun. rewrite Hraw in Hrun. unchanged Hrun. }
    destruct (getAuthUser c) as [u|] eqn:Hu; cycle 1.
    { unfold patch_api_tasks_id, zValidator in Hrun. rewrite Hraw, Hu in Hrun.
      unchanged Hrun. }
    destruct (head (task_where_id_userId tid (user_id u) db)) as [t0|] eqn:Hex; cycle 1.
    { destruct (not_found_run c tid db u Hu Hex) as (_ & _ & Hp).
      rewrite Hp, Hraw in Hrun. unchanged Hrun. }
    rewrite (patch_api_tasks_id_run c tid raw body db u t0 Hraw Hu Hex) in Hrun.
    cbn zeta in Hrun. right. right. left. exists tid, raw, body, u, t0.
    destruct (patch_accepted tid body db) eqn:Hacc; injection Hrun as <- <-.
    + split_and!; try done. by left.
    + split_and!; try done. by right.
  - destruct (getAuthUser c) as [u|] eqn:Hu.
    + rewrite (get_api_tags_run c db u Hu) in Hrun. unchanged Hrun.
    + unfold get_api_tags in Hrun. rewrite Hu in Hrun. unchanged Hrun.
  - destruct (createTagSchema raw) as [body|] eqn:Hraw; cycle 1.
    { unfold post_api_tags, zValidator in Hrun. rewrite Hraw in Hrun. unchanged Hrun. }
    destruct (getAuthUser c) as [u|] eqn:Hu; cycle 1.
    { unfold post_api_tags, zValidator in Hrun. rewrite Hraw, Hu in Hrun. unchanged Hrun. }
    rewrite (post_api_tags_run c raw body db u Hraw Hu) in Hrun.
    destruct (decide (randomUUID c ∈ _)) as [|Hfresh]; [unchanged Hrun|].
    do 3 right. left. exists raw, body, u. injection Hrun as <- <-. by split_and!.
  - destruct (getAuthUser c) as [u|] eqn:Hu; cycle 1.
    { unfold delete_api_tasks_id in Hrun. rewrite Hu in Hrun. unchanged Hrun. }
    destruct (head (task_where_id_userId tid (user_id u) db)) as [t0|] eqn:Hex; cycle 1.
    { destruct (not_found_run c tid db u Hu Hex) as (_ & Hd & _).
      rewrite Hd in Hrun. unchanged Hrun. }
    rewrite (delete_api_tasks_id_run c tid db u t0 Hu Hex) in Hrun.
    do 4 right. exists tid, u, t0.
    destruct (delete_task_where_id tid db) as [[[]|e] d] eqn:Hdel;
      injection Hrun as <- <-; split_and!; try done; [by left|].
    right. split; [done|]. revert Hdel. unfold delete_task_where_id.
    repeat case_match; by intros [= <-].
Qed.

Lemma task_after_delete tid db t :
  t ∈ task (delete_task_where_id tid db).2 → t ∈ task db.
Proof.
  destruct (delete_task_where_id_cases tid db) as [->| ->]; [done|].
  by intros [_ ?]%list_elem_of_filter.
Qed.

(** X1. A request that only reads (GET /tasks, GET /tasks/:id, GET /tags),
    and any request answered 400, 401 or 404, leaves the three tables
    exactly as they were. A read is answered 200, 401 or 404, or else 500,
    which only a listing with a non-empty [tag] parameter gets. *)
Theorem reads_and_refusals_change_nothing c r db resp db' :
  fetch c r db = (resp, db') →
  (is_read r = true →
     db' = db
     ∧ (status resp = 200 ∨ status resp = 401 ∨ status resp = 404
        ∨ (status resp = 500 ∧ ∃ g, g ≠ "" ∧ r = GET_tasks (Some g))))
  ∧ (status resp = 400 ∨ status resp = 401 ∨ status resp = 404 → db' = db).
Proof.
  intros Hrun. split.
  - intros Hread. unfold fetch, app in Hrun.
    destruct r as [q|tid|raw|tid raw| |raw|tid]; try discriminate Hread.
    + destruct (getAuthUser c) as [u|] eqn:Hu; cycle 1.
      { unfold get_api_tasks in Hrun. rewrite Hu in Hrun. injection Hrun as <- <-.
        split; [done|]. right. by left. }
      rewrite (get_api_tasks_run c q db u Hu) in Hrun.
      destruct q as [g|]; cycle 1.
      { injection Hrun as <- <-. by split; [|left]. }
      unfold truthy in Hrun. destruct (decide (g = "")) as [|Hg].
      { injection Hrun as <- <-. by split; [|left]. }
      destruct (decide (task_join_taskTag _ _ _ = [])); injection Hrun as <- <-;
        (split; [done|]); [by left|].
      do 3 right. split; [done|]. by exists g.
    + destruct (getAuthUser c) as [u|] eqn:Hu.
      * rewrite (get_api_tasks_id_run c tid db u Hu) in Hrun.
        destruct (head _); injection Hrun as <- <-; (split; [done|]);
          [by left|by do 2 right; left].
      * unfold get_api_tasks_id in Hrun. rewrite Hu in Hrun. injection Hrun as <- <-.
        split; [done|]. right. by left.
    + destruct (getAuthUser c) as [u|] eqn:Hu.
      * rewrite (get_api_tags_run c db u Hu) in Hrun. injection Hrun as <- <-. by split; [|left].
      * unfold get_api_tags in Hrun. rewrite Hu in Hrun. injection Hrun as <- <-.
        split; [done|]. right. by left.
  - intros Hst.
    destruct (fetch_effect c r db resp db' Hrun)
      as [[? _]|[(raw & body & u & _ & _ & _ & _ & _ & Hr)
         |[(tid & raw & body & u & t0 & _ & _ & _ & _ & _ & Hr)
         |[(raw & body & u & _ & _ & _ & _ & _ & Hr)
         |(tid & u & t0 & _ & _ & _ & _ & Hr)]]]]; [done|..].
    + destruct Hr as [[_ ->]|[_ ->]]; simpl in Hst; by destruct Hst as [?|[?|?]].
    + destruct Hr as [[_ ->]|[_ ->]]; simpl in Hst; by destruct Hst as [?|[?|?]].
    + rewrite Hr in Hst. simpl in Hst. by destruct Hst as [?|[?|?]].
    + destruct Hr as [[-> _]|[-> ?]]; [|done]. simpl in Hst. by destruct Hst as [?|[?|?]].
Qed.

(** X2. No request removes or rewrites a tag row: the tag table after a
    request is the table before it, followed by at most one new row, and a
    new row is the one a POST /tags of a signed-in user builds from its
    parsed body. *)
Theorem tag_table_only_grows c r db :
  tag (fetch c r db).2 = tag db
  ∨ ∃ raw body u,
      r = POST_tags raw ∧ createTagSchema raw = Some body ∧ getAuthUser c = Some u
      ∧ tag (fetch c r db).2
        = (tag db ++ [ {| Tag.id := randomUUID c; Tag.name := CreateTag.name body;
                          Tag.userId := user_id u; Tag.createdAt := Date_now c |} ])%list.
Proof.
  destruct (fetch c r db) as [resp db'] eqn:Hrun. simpl.
  destruct (fetch_effect c r db resp db' Hrun)
    as [[-> _]|[(raw & body & u & _ & _ & _ & _ & -> & _)
       |[(tid & raw & body & u & t0 & _ & _ & _ & _ & -> & _)
       |[(raw & body & u & -> & Hraw & Hu & _ & Hdb & _)
       |(tid & u & t0 & _ & _ & _ & -> & _)]]]].
  - by left.
  - by left.
  - left. apply tag_patch_db.
  - right. exists raw, body, u. split_and!; try done. by rewrite Hdb.
  - left. unfold delete_task_where_id. by repeat case_match.
Qed.

(** X3. Whatever the request, a task row of the table after it is either
    the row a POST /tasks just inserted (owned by the caller, with both
    dates at the request time and an id no row had), or stems from a row of
    the table before it with the same id, owner and creation date, and with
    a description if that row had one. Only a PATCH changes a row, and only
    a row with the id it addresses. *)
Theorem task_rows_keep_identity c r db t' :
  t' ∈ task (fetch c r db).2 →
  (∃ t, t ∈ task db
     ∧ Task.id t' = Task.id t ∧ Task.userId t' = Task.userId t
     ∧ Task.createdAt t' = Task.createdAt t
     ∧ (is_Some (Task.description t) → is_Some (Task.description t'))
     ∧ ((∀ raw, r ≠ PATCH_tasks_id (Task.id t) raw) → t' = t))
  ∨ (∃ raw u, r = POST_tasks raw ∧ getAuthUser c = Some u
       ∧ Task.id t' = randomUUID c ∧ Task.userId t' = user_id u
       ∧ Task.createdAt t' = Date_now c ∧ Task.updatedAt t' = Date_now c
       ∧ (randomUUID c ∉ Task.id <$> task db)).
Proof.
  destruct (fetch c r db) as [resp db'] eqn:Hrun. simpl. intros Hin.
  assert (Hold : t' ∈ task db →
    ∃ t, t ∈ task db ∧ Task.id t' = Task.id t ∧ Task.userId t' = Task.userId t
      ∧ Task.createdAt t' = Task.createdAt t
      ∧ (is_Some (Task.description t) → is_Some (Task.description t'))
      ∧ ((∀ raw, r ≠ PATCH_tasks_id (Task.id t) raw) → t' = t)).
  { intros ?. by exists t'. }
  destruct (fetch_effect c r db resp db' Hrun)
    as [[-> _]|[(raw & body & u & -> & _ & Hu & Hfresh & -> & _)
       |[(tid & raw & body & u & t0 & -> & _ & _ & _ & -> & _)
       |[(raw & body & u & _ & _ & _ & _ & -> & _)
       |(tid & u & t0 & _ & _ & _ & -> & _)]]]].
  - left. by apply Hold.
  - unfold post_db in Hin. simpl in Hin. apply elem_of_app in Hin as [Hin|Hin].
    + left. by apply Hold.
    + apply list_elem_of_singleton in Hin as ->. right. by exists raw, u.
  - left. rewrite task_patch_db in Hin. unfold patch_rows in Hin.
    apply list_elem_of_fmap in Hin as (t & -> & Ht). exists t.
    destruct (decide (Task.id t = tid)) as [Heq|Hne]; simpl.
    + split_and!; try done.
      * intros [d Hd]. rewrite Hd. destruct (UpdateTask.description body); by eexists.
      * intros Hr. by destruct (Hr raw); rewrite Heq.
    + by split_and!.
  - left. by apply Hold.
  - left. apply Hold. by apply task_after_delete in Hin.
Qed.

(** ** What the body schemas let through *)

Lemma z_string_min1_non_empty v s : z_string_min1 v = Some s → v = JString s ∧ s ≠ "".
Proof.
  unfold z_string_min1, z_string. destruct v as [| | |s'| |]; try done. simpl.
  destruct (decide (1 ≤ String.length s')%nat) as [Hlen|]; [|done].
  intros [= <-]. split; [done|]. intros ->. simpl in Hlen. lia.
Qed.

Lemma createTaskSchema_object raw body :
  createTaskSchema raw = Some body →
  ∃ o st pr, raw = JObject o
    ∧ property "title" o = Some (JString (CreateTask.title body))
    ∧ CreateTask.title body ≠ ""
    ∧ z_optional z_string (property "description" o) = Some (CreateTask.description body)
    ∧ z_optional z_taskStatusEnum (property "status" o) = Some st
    ∧ CreateTask.status body = default todo st
    ∧ z_optional z_taskPriorityEnum (property "priority" o) = Some pr
    ∧ CreateTask.priority body = default medium pr
    ∧ z_optional z_array_string (property "tags" o) = Some (CreateTask.tags body).
Proof.
  destruct raw as [| | | | |o]; try done. simpl. intros H.
  destruct (property "title" o) as [v|] eqn:Hv; [|done]. simpl in H.
  destruct (z_string_min1 v) as [s|] eqn:Hs; [|done]. simpl in H.
  apply z_string_min1_non_empty in Hs as [-> Hne].
  destruct (z_optional z_string _) as [b|] eqn:Hb; [|done].
  destruct (z_optional z_taskStatusEnum _) as [st|] eqn:Hst; [|done].
  destruct (z_optional z_taskPriorityEnum _) as [pr|] eqn:Hpr; [|done].
  destruct (z_optional z_array_string _) as [f|] eqn:Hf; [|done].
  simpl in H. injection H as <-. by exists o, st, pr.
Qed.

Lemma createTagSchema_name raw body :
  createTagSchema raw = Some body →
  ∃ o, raw = JObject o ∧ property "name" o = Some (JString (CreateTag.name body))
    ∧ CreateTag.name body ≠ "".
Proof.
  destruct raw as [| | | | |o]; try done. simpl. intros H.
  destruct (property "name" o) as [v|] eqn:Hv; [|done]. simpl in H.
  destruct (z_string_min1 v) as [s|] eqn:Hs; [|done]. simpl in H.
  apply z_string_min1_non_empty in Hs as [-> Hne]. simplify_eq/=. by exists o.
Qed.

Lemma updateTaskSchema_title raw body s :
  updateTaskSchema raw = Some body → UpdateTask.title body = Some s → s ≠ "".
Proof.
  intros (o & -> & Ht & _)%updateTaskSchema_object Hs. rewrite Hs in Ht.
  unfold z_optional in Ht. destruct (property "title" o) as [v|]; [|done].
  destruct (z_string_min1 v) as [s'|] eqn:Hv; simplify_eq/=.
  by apply z_string_min1_non_empty in Hv as [_ ?].
Qed.

(** X4. No request gives a task an empty title or a tag an empty name: if
    every task row has a non-empty title and every tag row a non-empty name
    before a request, so it is after it, whatever the body holds. *)
Theorem titles_and_names_stay_non_empty c r db :
  (∀ t, t ∈ task db → Task.title t ≠ "") →
  (∀ g, g ∈ tag db → Tag.name g ≠ "") →
  (∀ t, t ∈ task (fetch c r db).2 → Task.title t ≠ "")
  ∧ (∀ g, g ∈ tag (fetch c r db).2 → Tag.name g ≠ "").
Proof.
  intros Ht Hg. destruct (fetch c r db) as [resp db'] eqn:Hrun. simpl.
  destruct (fetch_effect c r db resp db' Hrun)
    as [[-> _]|[(raw & body & u & _ & Hraw & _ & _ & -> & _)
       |[(tid & raw & body & u & t0 & _ & Hraw & _ & _ & -> & _)
       |[(raw & body & u & _ & Hraw & _ & _ & -> & _)
       |(tid & u & t0 & _ & _ & _ & -> & _)]]]].
  - done.
  - split; [|done]. unfold post_db. simpl. intros t [Hin| ->%list_elem_of_singleton]%elem_of_app.
    + by apply Ht.
    + simpl. by apply createTaskSchema_object in Hraw as (o & st & pr & _ & _ & ? & _).
  - rewrite tag_patch_db, task_patch_db. split; [|done]. unfold patch_rows.
    intros t (t1 & -> & Ht1)%list_elem_of_fmap.
    destruct (decide (Task.id t1 = tid)); [|by apply Ht]. simpl.
    destruct (UpdateTask.title body) as [s|] eqn:Hs; simpl; [|by apply Ht].
    by apply (updateTaskSchema_title raw body).
  - simpl. split; [done|]. intros g [Hin| ->%list_elem_of_singleton]%elem_of_app.
    + by apply Hg.
    + simpl. by apply createTagSchema_name in Hraw as (o & _ & _ & ?).
  - split.
    + intros t Hin%task_after_delete. by apply Ht.
    + assert (tag (delete_task_where_id tid db).2 = tag db) as ->; [|done].
      unfold delete_task_where_id. by repeat case_match.
Qed.

(** X5. The task a successful POST /tasks returns is owned by the caller,
    carries the drawn id, the title of the body and the request time as both
    dates, and gets status [todo], priority [medium] and no description
    where the body has no such property. *)
Theorem post_applies_schema_defaults c o db resp db' :
  fetch c (POST_tasks (JObject o)) db = (resp, db') →
  status resp = 201 →
  ∃ u t tgs,
    getAuthUser c = Some u
    ∧ payload resp = task_payload {| fields := Some t; tags := Some tgs |}
    ∧ t ∈ task db'
    ∧ Task.id t = randomUUID c
    ∧ Task.userId t = user_id u
    ∧ Task.createdAt t = Date_now c
    ∧ Task.updatedAt t = Date_now c
    ∧ property "title" o = Some (JString (Task.title t))
    ∧ (property "status" o = None → Task.status t = todo)
    ∧ (property "priority" o = None → Task.priority t = medium)
    ∧ (property "description" o = None → Task.description t = None).
Proof.
  intros Hrun Hst.
  destruct (post_success _ _ _ _ _ Hrun Hst) as (body & u & Hraw & Hu & Hpk & Hacc & Hdb & Hresp).
  destruct (createTaskSchema_object _ _ Hraw)
    as (o' & st & pr & [= <-] & Htitle & _ & Hd & Hs & Hs' & Hp & Hp' & _).
  exists u, (new_task c u body), (joined_tags (randomUUID c) db').
  split_and!; try done.
  - by rewrite Hresp.
  - rewrite Hdb. unfold post_db. simpl. apply elem_of_app. right. by left.
  - intros Hno. simpl. by rewrite Hs', (z_optional_absent _ _ _ Hs Hno).
  - intros Hno. simpl. by rewrite Hp', (z_optional_absent _ _ _ Hp Hno).
  - intros Hno. simpl. by rewrite (z_optional_absent _ _ _ Hd Hno).
Qed.

(** ** Writing, then reading back *)

Lemma where_fresh_id tid uid (ts : list Task.row) :
  tid ∉ Task.id <$> ts →
  filter (λ t, Task.id t = tid ∧ Task.userId t = uid) ts = [].
Proof.
  intros Hfresh. apply filter_none, Forall_forall. intros t Ht [Hid _].
  apply Hfresh. rewrite <- Hid. by apply list_elem_of_fmap_2.
Qed.

(** X6. After a POST /tasks answered 201, the creator's GET /tasks/:id for
    the returned id answers 200 with exactly the returned task row (and, as
    always on this route, without a [tags] array), and any other user's
    GET for that id answers 404. *)
Theorem post_then_get_returns_created_task c raw db resp db' :
  fetch c (POST_tasks raw) db = (resp, db') →
  status resp = 201 →
  ∃ u t tgs,
    getAuthUser c = Some u
    ∧ payload resp = task_payload {| fields := Some t; tags := Some tgs |}
    ∧ (∀ c', getAuthUser c' = Some u →
         fetch c' (GET_tasks_id (Task.id t)) db'
         = (c_json (task_payload {| fields := Some t; tags := None |}) 200, db'))
    ∧ (∀ c' u', getAuthUser c' = Some u' → user_id u' ≠ user_id u →
         fetch c' (GET_tasks_id (Task.id t)) db' = (Task_not_found, db')).
Proof.
  intros Hrun Hst.
  destruct (post_success _ _ _ _ _ Hrun Hst) as (body & u & Hraw & Hu & Hpk & Hacc & Hdb & Hresp).
  exists u, (new_task c u body), (joined_tags (randomUUID c) db').
  split_and!; [done | by rewrite Hresp | |].
  - intros c' Hu'. unfold fetch, app. rewrite (get_api_tasks_id_run c' _ db' u Hu').
    unfold task_where_id_userId. rewrite Hdb. unfold post_db. simpl.
    rewrite filter_app, where_fresh_id by done.
    rewrite filter_cons, decide_True by done. done.
  - intros c' u' Hu' Hne. unfold fetch, app. rewrite (get_api_tasks_id_run c' _ db' u' Hu').
    unfold task_where_id_userId. rewrite Hdb. unfold post_db. simpl.
    rewrite filter_app, where_fresh_id by done.
    rewrite filter_cons, decide_False; [done|]. simpl. intros [_ ?]. by apply Hne.
Qed.

(** X7. After a POST /tags answered 201, the creator's GET /tags lists the
    tags that user had before, in table order, followed by the returned
    tag; the tag is owned by the creator and carries the name of the body. *)
Theorem post_tag_then_get_tags c o db resp db' :
  fetch c (POST_tags (JObject o)) db = (resp, db') →
  status resp = 201 →
  ∃ u g,
    getAuthUser c = Some u
    ∧ payload resp = tag_payload g
    ∧ Tag.userId g = user_id u
    ∧ property "name" o = Some (JString (Tag.name g))
    ∧ Tag.id g = randomUUID c
    ∧ ∀ c', getAuthUser c' = Some u →
        fetch c' GET_tags db'
        = (c_json (tags_payload (tag_where_userId (user_id u) db ++ [g])) 200, db').
Proof.
  intros Hrun Hst.
  destruct (fetch_effect _ _ _ _ _ Hrun)
    as [(_ & ? & _)|[(raw & body & u & [=] & _)
       |[(tid & raw & body & u & t0 & [=] & _)
       |[(raw & body & u & [= <-] & Hraw & Hu & Hfresh & Hdb & Hresp)
       |(tid & u & t0 & [=] & _)]]]]; [done|].
  cbn zeta in Hdb, Hresp.
  destruct (createTagSchema_name _ _ Hraw) as (o' & [= <-] & Hname & _).
  eexists u, _. split_and!; [done | by rewrite Hresp | done.. |].
  intros c' Hu'. unfold fetch, app. rewrite (get_api_tags_run c' db' u Hu').
  unfold tag_where_userId. rewrite Hdb. simpl.
  by rewrite filter_app, filter_cons, decide_True.
Qed.

Lemma head_where_None tid uid db :
  head (task_where_id_userId tid uid db) = None
  ↔ ¬ ∃ t, t ∈ task db ∧ Task.id t = tid ∧ Task.userId t = uid.
Proof.
  unfold task_where_id_userId. split.
  - intros Hno (t & Hin & Hid & Hown). apply head_None in Hno.
    by apply (filter_nil_not_elem_of _ _ t Hno).
  - intros Hno. destruct (head _) as [t|] eqn:Hhd; [|done].
    apply head_filter_Some in Hhd as [[? ?] ?]. destruct Hno. by exists t.
Qed.

(** X8. For a signed-in user, GET, DELETE and (with a body that passes
    validation) PATCH of /tasks/:id answer 404 exactly when the user owns
    no task row with that id; then nothing is changed. When the user owns
    one, GET answers 200 and PATCH and DELETE answer 200 or 500. *)
Theorem not_found_iff_not_owned c u tid raw db :
  getAuthUser c = Some u →
  is_Some (updateTaskSchema raw) →
  let owns := ∃ t, t ∈ task db ∧ Task.id t = tid ∧ Task.userId t = user_id u in
  let get := fetch c (GET_tasks_id tid) db in
  let patch := fetch c (PATCH_tasks_id tid raw) db in
  let delete := fetch c (DELETE_tasks_id tid) db in
  (¬ owns → get = (Task_not_found, db) ∧ patch = (Task_not_found, db)
            ∧ delete = (Task_not_found, db))
  ∧ (owns → status get.1 = 200
            ∧ (status patch.1 = 200 ∨ status patch.1 = 500)
            ∧ (status delete.1 = 200 ∨ status delete.1 = 500)).
Proof.
  intros Hu [body Hraw]. cbn zeta. split.
  - intros Hno%head_where_None. unfold fetch, app.
    destruct (not_found_run c tid db u Hu Hno) as (-> & -> & ->). by rewrite Hraw.
  - intros Hown.
    destruct (head (task_where_id_userId tid (user_id u) db)) as [t0|] eqn:Hex; cycle 1.
    { by apply head_where_None in Hex. }
    unfold fetch, app. rewrite (get_api_tasks_id_run c tid db u Hu), Hex.
    rewrite (patch_api_tasks_id_run c tid raw body db u t0 Hraw Hu Hex).
    rewrite (delete_api_tasks_id_run c tid db u t0 Hu Hex). split_and!.
    + done.
    + cbn zeta. destruct (patch_accepted tid body db); [by left|by right].
    + destruct (delete_task_where_id tid db) as [[[]|e] d]; [by left|by right].
Qed.

Lemma delete_task_where_id_returned tid db :
  (delete_task_where_id tid db).1 = Returned () →
  task (delete_task_where_id tid db).2 = filter (λ t, Task.id t ≠ tid) (task db)
  ∧ tag (delete_task_where_id tid db).2 = tag db
  ∧ ∀ tid', tid' ≠ tid →
      links tid' (delete_task_where_id tid db).2 = links tid' db.
Proof.
  assert (Hkeep : ∀ tid', tid' ≠ tid →
    filter (λ r, TaskTag.taskId r = tid') (filter (λ r, TaskTag.taskId r ≠ tid) (taskTag db))
    = links tid' db).
  { intros tid' Hne. apply filter_filter_implied. intros r _ Hr Hr'.
    apply Hne. by rewrite <- Hr, Hr'. }
  unfold delete_task_where_id.
  destruct (decide (task_where_id tid db = [])) as [Hnone|Hsome].
  { intros _. split_and!; try done. simpl. symmetry. apply filter_all, Forall_forall.
    intros t Ht Hid. by apply (filter_nil_not_elem_of _ _ t Hnone). }
  destruct (foreign_keys (schema db)); cycle 1.
  { intros _. by split_and!. }
  destruct (task_tag_on_delete (schema db)).
  - destruct (decide (filter _ (taskTag db) = [])); simpl.
    + intros _. by split_and!.
    + intros [=].
  - intros _. split_and!; [done | done | exact Hkeep].
Qed.

(** X9. A DELETE /tasks/:id answered 200 removes the task rows with that id
    and nothing else from the task table, leaves the tag table and the
    task_tag rows of every other task as they were, and afterwards the id
    is found on no route: GET /tasks/:id answers 404 (or 401) to everyone
    and no listing carries a task with it. This holds whichever way the
    schema treats the task_tag rows of the task. *)
Theorem delete_removes_only_the_task c tid db resp db' :
  fetch c (DELETE_tasks_id tid) db = (resp, db') →
  status resp = 200 →
  task db' = filter (λ t, Task.id t ≠ tid) (task db)
  ∧ tag db' = tag db
  ∧ (∀ tid', tid' ≠ tid → links tid' db' = links tid' db)
  ∧ (∀ c', status (fetch c' (GET_tasks_id tid) db').1 = 404
           ∨ status (fetch c' (GET_tasks_id tid) db').1 = 401)
  ∧ (∀ c' q tj t, tj ∈ listing (fetch c' (GET_tasks q) db').1 →
       fields tj = Some t → Task.id t ≠ tid).
Proof.
  intros Hrun Hst.
  destruct (fetch_effect _ _ _ _ _ Hrun)
    as [(_ & _ & Hread & _)|[(raw & body & u & [=] & _)
       |[(tid1 & raw & body & u & t0 & [=] & _)
       |[(raw & body & u & [=] & _)
       |(tid1 & u & t0 & [= <-] & Hu & Hex & Hdb & Hr)]]]].
  { by specialize (Hread Hst). }
  destruct Hr as [[-> Hret]|[-> _]]; [|done].
  destruct (delete_task_where_id_returned tid db Hret) as (Ht & Hg & Hl).
  rewrite <- Hdb in Ht, Hg, Hl.
  assert (Hgone : ∀ t, t ∈ task db' → Task.id t ≠ tid).
  { intros t. rewrite Ht. by intros [? _]%list_elem_of_filter. }
  split_and!; try done.
  - intros c'. unfold fetch, app. destruct (getAuthUser c') as [u'|] eqn:Hu'.
    + rewrite (get_api_tasks_id_run c' tid db' u' Hu'). unfold task_where_id_userId.
      rewrite Ht, head_where_after_delete. by left.
    + unfold get_api_tasks_id. rewrite Hu'. by right.
  - intros c' q tj t (t' & Hin & ->)%listing_embed [= <-]. by apply Hgone.
Qed.

(** X10. With distinct task ids, the task row a successful PATCH returns is
    the row stored under the addressed id, and the owner's next
    GET /tasks/:id answers 200 with that very row. *)
Theorem patch_then_get_returns_patched_row c tid raw db resp db' :
  NoDup (Task.id <$> task db) →
  fetch c (PATCH_tasks_id tid raw) db = (resp, db') →
  status resp = 200 →
  ∃ u t tgs,
    getAuthUser c = Some u
    ∧ payload resp = task_payload {| fields := Some t; tags := Some tgs |}
    ∧ t ∈ task db' ∧ Task.id t = tid ∧ Task.updatedAt t = Date_now c
    ∧ ∀ c', getAuthUser c' = Some u →
        fetch c' (GET_tasks_id tid) db'
        = (c_json (task_payload {| fields := Some t; tags := None |}) 200, db').
Proof.
  intros Hnd Hrun Hst.
  destruct (patch_success _ _ _ _ _ _ Hrun Hst)
    as (body & u & t0 & Hraw & Hu & Hex & Hacc & Hdb & Hresp).
  destruct (patched_row_found c tid body db u t0 Hnd Hex) as (t & Hhd & Hid & Hown).
  rewrite <- Hdb in Hhd.
  assert (Hin : t ∈ task db') by by apply head_filter_Some in Hhd as [_ ?].
  assert (Hnd' : NoDup (Task.id <$> task db')) by by rewrite Hdb, task_patch_db, patch_rows_id.
  exists u, t, (joined_tags tid db'). split_and!; try done.
  - by rewrite Hresp, Hhd.
  - rewrite Hdb, task_patch_db in Hin. unfold patch_rows in Hin.
    apply list_elem_of_fmap in Hin as (t1 & Heq & _).
    destruct (decide (Task.id t1 = tid)) as [|Hne]; [by rewrite Heq|].
    subst t. by destruct Hne.
  - intros c' Hu'. unfold fetch, app. rewrite (get_api_tasks_id_run c' tid db' u Hu').
    destruct (head (task_where_id_userId tid (user_id u) db')) as [t'|] eqn:Hhd'.
    + apply head_filter_Some in Hhd' as [[Hid' _] Hin'].
      assert (t' = t) as -> by (apply (unique_id (task db')); [done..|]; by rewrite Hid', Hid).
      done.
    + apply head_where_None in Hhd'. destruct Hhd'. by exists t.
Qed.

(** ** The tag filter of the listing *)

Lemma task_join_taskTag_nil uid g db :
  task_join_taskTag uid g db = []
  ↔ ¬ ∃ t, t ∈ task db ∧ Task.userId t = uid ∧ TaskTag.mk (Task.id t) g ∈ taskTag db.
Proof.
  split.
  - intros Hnil (t & Ht & Hown & Hr).
    assert (Hin : (t, TaskTag.mk (Task.id t) g) ∈ task_join_taskTag uid g db)
      by by apply elem_of_task_join_taskTag.
    rewrite Hnil in Hin. by apply elem_of_nil in Hin.
  - intros Hno. destruct (task_join_taskTag uid g db) as [|[t r] rows] eqn:Hrows; [done|].
    destruct Hno. exists t.
    assert (Hin : (t, r) ∈ task_join_taskTag uid g db) by (rewrite Hrows; left).
    apply elem_of_task_join_taskTag in Hin as (Ht & Hr & Hid & Hown & Hg).
    split_and!; [done..|].
    assert (r = TaskTag.mk (Task.id t) g) as <-; [|done].
    by apply TaskTag_row_eq.
Qed.

(** X11. GET /tasks?tag=T of a signed-in user, for a non-empty T, never
    lists a task: when a task of the user has a task_tag row for T the
    answer is 500, and otherwise it is 200 with an empty list; either way
    nothing is changed. *)
Theorem tag_filter_never_lists_a_task c u g db :
  getAuthUser c = Some u →
  g ≠ "" →
  let matching :=
    ∃ t, t ∈ task db ∧ Task.userId t = user_id u ∧ TaskTag.mk (Task.id t) g ∈ taskTag db in
  (matching → fetch c (GET_tasks (Some g)) db = (c_json internal_server_error 500, db))
  ∧ (¬ matching → fetch c (GET_tasks (Some g)) db = (c_json (tasks_payload []) 200, db)).
Proof.
  intros Hu Hg. cbn zeta. unfold fetch, app.
  rewrite (get_api_tasks_run c (Some g) db u Hu). unfold truthy.
  rewrite decide_False by done. split.
  - intros Hm. rewrite decide_False; [done|].
    intros Hnil%task_join_taskTag_nil. by apply Hnil.
  - intros Hno%task_join_taskTag_nil. by rewrite decide_True.
Qed.

Lemma fetch_keeps_tag_ids_distinct c r db :
  NoDup (Tag.id <$> tag db) → NoDup (Tag.id <$> tag (fetch c r db).2).
Proof.
  intros Hnd. destruct (fetch c r db) as [resp db'] eqn:Hrun. simpl.
  destruct (fetch_effect c r db resp db' Hrun)
    as [[-> _]|[(raw & body & u & _ & _ & _ & _ & -> & _)
       |[(tid & raw & body & u & t0 & _ & _ & _ & _ & -> & _)
       |[(raw & body & u & _ & _ & _ & Hfresh & -> & _)
       |(tid & u & t0 & _ & _ & _ & -> & _)]]]]; try done.
  - by rewrite tag_patch_db.
  - simpl. rewrite fmap_app. apply NoDup_app. split_and!; [done| |apply NoDup_singleton].
    intros i Hi ->%list_elem_of_singleton. done.
  - assert (tag (delete_task_where_id tid db).2 = tag db) as ->; [|done].
    unfold delete_task_where_id. by repeat case_match.
Qed.

(** X12. The primary keys hold across requests: if the task rows have
    distinct ids and the tag rows have distinct ids before a request, they
    do after it; a POST whose drawn id is taken answers 500 and stores
    nothing. *)
Theorem fetch_keeps_primary_keys c r db :
  NoDup (Task.id <$> task db) →
  NoDup (Tag.id <$> tag db) →
  NoDup (Task.id <$> task (fetch c r db).2)
  ∧ NoDup (Tag.id <$> tag (fetch c r db).2)
  ∧ (∀ raw, r = POST_tasks raw → is_Some (createTaskSchema raw) → is_Some (getAuthUser c) →
       randomUUID c ∈ Task.id <$> task db →
       fetch c r db = (c_json internal_server_error 500, db))
  ∧ (∀ raw, r = POST_tags raw → is_Some (createTagSchema raw) → is_Some (getAuthUser c) →
       randomUUID c ∈ Tag.id <$> tag db →
       fetch c r db = (c_json internal_server_error 500, db)).
Proof.
  intros Ht Hg. split_and!.
  - by apply fetch_keeps_task_ids_distinct.
  - by apply fetch_keeps_tag_ids_distinct.
  - intros raw -> [body Hraw] [u Hu] Hin. unfold fetch, app.
    rewrite (post_api_tasks_run c raw body db u Hraw Hu). by rewrite decide_True.
  - intros raw -> [body Hraw] [u Hu] Hin. unfold fetch, app.
    rewrite (post_api_tags_run c raw body db u Hraw Hu). by rewrite decide_True.
Qed.

(** ** Foreign keys *)

Lemma accepted_accepts db rs r : r ∈ accepted db rs → accepts db r.
Proof.
  induction rs as [|r' rs IH]; simpl; [by intros ?%elem_of_nil|].
  destruct (decide (accepts db r')); [|by intros ?%elem_of_nil].
  intros [->|?]%elem_of_cons; [done|by apply IH].
Qed.

(** X13. Where the database enforces foreign keys, no request leaves a
    task_tag row whose task or whose tag is missing: if every task_tag row
    names a task row and a tag row before a request, so it does after it,
    under [NO ACTION] as under [cascade]. *)
Theorem enforced_foreign_keys_hold c r db :
  foreign_keys (schema db) = true →
  (∀ x, x ∈ taskTag db →
     TaskTag.taskId x ∈ Task.id <$> task db ∧ TaskTag.tagId x ∈ Tag.id <$> tag db) →
  ∀ x, x ∈ taskTag (fetch c r db).2 →
    TaskTag.taskId x ∈ Task.id <$> task (fetch c r db).2
    ∧ TaskTag.tagId x ∈ Tag.id <$> tag (fetch c r db).2.
Proof.
  intros Hfk Hok. destruct (fetch c r db) as [resp db'] eqn:Hrun. simpl.
  destruct (fetch_effect c r db resp db' Hrun)
    as [[-> _]|[(raw & body & u & _ & _ & _ & _ & -> & _)
       |[(tid & raw & body & u & t0 & _ & _ & _ & _ & -> & _)
       |[(raw & body & u & _ & _ & _ & _ & -> & _)
       |(tid & u & t0 & _ & _ & Hex & -> & _)]]]].
  - done.
  - unfold post_db. simpl. intros x [Hx|Hx]%elem_of_app.
    + destruct (Hok x Hx) as [? ?]. split; [|done]. rewrite fmap_app. apply elem_of_app. by left.
    + apply accepted_accepts in Hx. by apply Hx.
  - rewrite task_patch_db, tag_patch_db, patch_rows_id. unfold patch_db.
    destruct (UpdateTask.tags body) as [l|]; simpl; [|done].
    intros x [Hx|Hx]%elem_of_app.
    + apply list_elem_of_filter in Hx as [_ Hx]. by apply Hok.
    + apply accepted_accepts in Hx. by apply Hx.
  - simpl. intros x Hx. destruct (Hok x Hx) as [? ?]. split; [done|].
    rewrite fmap_app. apply elem_of_app. by left.
  - assert (Hkept : ∀ x, x ∈ taskTag db → TaskTag.taskId x ≠ tid →
              TaskTag.taskId x ∈ Task.id <$> filter (λ t, Task.id t ≠ tid) (task db)).
    { intros x Hx Hne. destruct (Hok x Hx) as [(t & Heq & Ht)%list_elem_of_fmap _].
      apply list_elem_of_fmap. exists t. split; [done|]. apply list_elem_of_filter.
      split; [|done]. by rewrite <- Heq. }
    unfold delete_task_where_id.
    destruct (decide (task_where_id tid db = [])); [done|]. rewrite Hfk.
    destruct (task_tag_on_delete (schema db)).
    + destruct (decide (filter _ (taskTag db) = [])) as [Hnil|]; [|done]. simpl.
      intros x Hx. split; [|by apply Hok]. apply Hkept; [done|].
      intros Heq. by apply (filter_nil_not_elem_of _ _ x Hnil).
    + simpl. intros x [Hne Hx]%list_elem_of_filter. split; [|by apply Hok].
      by apply Hkept.
Qed.

Lemma first_rejected db tid (l : list string) :
  ¬ Forall (accepts db) (TaskTag.mk tid <$> l) →
  ∃ k g, l !! k = Some g ∧ ¬ accepts db (TaskTag.mk tid g)
    ∧ accepted db (TaskTag.mk tid <$> l) = TaskTag.mk tid <$> take k l.
Proof.
  induction l as [|g l IH]; intros Hno.
  - destruct Hno. constructor.
  - rewrite fmap_cons. cbn [accepted].
    destruct (decide (accepts db (TaskTag.mk tid g))) as [Hok|Hrej].
    + destruct IH as (k & g' & Hk & Hg' & Heq).
      { intros Hall. apply Hno. rewrite fmap_cons. by constructor. }
      exists (S k), g'. split_and!; [done | done |]. rewrite Heq. done.
    + by exists 0, g.
Qed.

Lemma links_of_own_rows tid rs (old : list TaskTag.row) :
  Forall (λ r, TaskTag.taskId r = tid) rs →
  filter (λ r, TaskTag.taskId r = tid)
    (filter (λ r, TaskTag.taskId r ≠ tid) old ++ rs)%list = rs.
Proof.
  intros Hrs. rewrite filter_app, list_filter_filter.
  rewrite filter_none by (apply Forall_forall; intros r _; tauto).
  by rewrite filter_all.
Qed.

(** X14. A PATCH is not undone when one of its tag inserts is rejected. If
    PATCH /tasks/:id answers 500, foreign keys are enforced and some
    supplied tag id names no tag row; the task row has been rewritten all
    the same ([updatedAt] is the request time), its previous task_tag rows
    are gone, and the rows of the supplied ids before the first unknown one
    are the only ones it has. *)
Theorem failed_patch_is_not_rolled_back c tid raw db resp db' :
  fetch c (PATCH_tasks_id tid raw) db = (resp, db') →
  status resp = 500 →
  ∃ body l k g,
    updateTaskSchema raw = Some body
    ∧ UpdateTask.tags body = Some l
    ∧ foreign_keys (schema db) = true
    ∧ l !! k = Some g
    ∧ (g ∉ Tag.id <$> tag db)
    ∧ links tid db' = TaskTag.mk tid <$> take k l
    ∧ task db' = patch_rows tid (patch_set c body) (task db)
    ∧ (∃ t, t ∈ task db' ∧ Task.id t = tid)
    ∧ (∀ t, t ∈ task db' → Task.id t = tid → Task.updatedAt t = Date_now c).
Proof.
  intros Hrun Hst.
  destruct (fetch_effect _ _ _ _ _ Hrun)
    as [(_ & _ & _ & Hpost)|[(raw1 & body & u & [=] & _)
       |[(tid1 & raw1 & body & u & t0 & [= <- <-] & Hraw & Hu & Hex & Hdb & Hr)
       |[(raw1 & body & u & [=] & _)
       |(tid1 & u & t0 & [=] & _)]]]].
  { by destruct (Hpost Hst) as [[raw1 [?|?]]|[g ?]]. }
  destruct Hr as [[_ ->]|[Hacc _]]; [done|].
  unfold patch_accepted in Hacc. destruct (UpdateTask.tags body) as [l|] eqn:Hl; [|done].
  apply bool_decide_eq_false in Hacc.
  destruct (first_rejected db tid l Hacc) as (k & g & Hk & Hrej & Heq).
  apply head_filter_Some in Hex as [[Hid _] Hin].
  assert (Hfk : foreign_keys (schema db) = true).
  { destruct (foreign_keys (schema db)) eqn:Hfk; [done|]. destruct Hrej.
    unfold accepts. intros Htrue. congruence. }
  exists body, l, k, g. split_and!; try done.
  - intros Hg. apply Hrej. intros _. split; [|done]. simpl. rewrite <- Hid.
    by apply list_elem_of_fmap_2.
  - rewrite Hdb. unfold patch_db, links. rewrite Hl. simpl. rewrite Heq.
    apply links_of_own_rows, Forall_forall. by intros r (i & -> & _)%list_elem_of_fmap.
  - by rewrite Hdb, task_patch_db.
  - exists (apply_set (patch_set c body) t0). split; [|done].
    rewrite Hdb, task_patch_db. unfold patch_rows. apply list_elem_of_fmap.
    exists t0. by rewrite decide_True.
  - intros t. rewrite Hdb, task_patch_db. unfold patch_rows.
    intros (t1 & -> & _)%list_elem_of_fmap.
    destruct (decide (Task.id t1 = tid)); [done|]. by intros ?.
Qed.

(** X15. A POST /tasks is not undone either. If it answers 500, then either
    the drawn id was taken and nothing was stored, or foreign keys are
    enforced, some supplied tag id names no tag row, and the new task row
    is in the table together with the task_tag rows of the supplied ids
    before the first unknown one. *)
Theorem failed_post_is_not_rolled_back c raw db resp db' :
  fetch c (POST_tasks raw) db = (resp, db') →
  status resp = 500 →
  (randomUUID c ∈ Task.id <$> task db) ∧ db' = db
  ∨ ∃ body u k g,
      createTaskSchema raw = Some body
      ∧ getAuthUser c = Some u
      ∧ foreign_keys (schema db) = true
      ∧ default [] (CreateTask.tags body) !! k = Some g
      ∧ (g ∉ Tag.id <$> tag db)
      ∧ task db' = (task db ++ [new_task c u body])%list
      ∧ taskTag db'
        = (taskTag db
           ++ (TaskTag.mk (randomUUID c) <$> take k (default [] (CreateTask.tags body))))%list.
Proof.
  unfold fetch, app. intros Hrun Hst.
  destruct (createTaskSchema raw) as [body|] eqn:Hraw; cycle 1.
  { unfold post_api_tasks, zValidator in Hrun. rewrite Hraw in Hrun. by simplify_eq/=. }
  destruct (getAuthUser c) as [u|] eqn:Hu; cycle 1.
  { unfold post_api_tasks, zValidator in Hrun. rewrite Hraw, Hu in Hrun. by simplify_eq/=. }
  rewrite (post_api_tasks_run c raw body db u Hraw Hu) in Hrun.
  destruct (decide (randomUUID c ∈ _)) as [Hin|Hfresh].
  { left. by injection Hrun as _ <-. }
  right. cbn zeta in Hrun.
  destruct (bool_decide _) eqn:Hacc; [by simplify_eq/=|].
  apply bool_decide_eq_false in Hacc. injection Hrun as _ <-.
  set (db1 := with_task (task db ++ [new_task c u body]) db) in *.
  destruct (first_rejected db1 (randomUUID c) _ Hacc) as (k & g & Hk & Hrej & Heq).
  assert (Hfk : foreign_keys (schema db) = true).
  { destruct (foreign_keys (schema db)) eqn:Hfk; [done|]. destruct Hrej.
    unfold accepts. simpl. intros Htrue. congruence. }
  exists body, u, k, g. split_and!; try done.
  - intros Hg. apply Hrej. intros _. split; [|done]. simpl.
    rewrite fmap_app. apply elem_of_app. right. by left.
  - unfold post_db, new_links. fold db1. simpl. by rewrite Heq.
Qed.

(** ** The entries of a [tags] array *)

Lemma ids_of_matching_tags i (gs : list Tag.row) :
  NoDup (Tag.id <$> gs) →
  Tag.id <$> filter (λ g, i = Tag.id g) gs = if decide (i ∈ Tag.id <$> gs) then [i] else [].
Proof.
  induction gs as [|g gs IH]; [done|].
  rewrite fmap_cons. intros [Hg Hnd]%NoDup_cons. rewrite filter_cons.
  destruct (decide (i = Tag.id g)) as [->|Hne].
  - rewrite fmap_cons, (IH Hnd), decide_False by done.
    rewrite decide_True; [done|left].
  - rewrite (IH Hnd). destruct (decide (i ∈ Tag.id <$> gs)) as [Hin|Hout].
    + rewrite decide_True; [done|by right].
    + rewrite decide_False; [done|]. by intros [?|?]%elem_of_cons.
Qed.

(** With distinct tag ids the join has one row for each task_tag row of the
    task whose tag id names a tag row, in the order of the task_tag rows. *)
Lemma joined_ids_in_order tid db :
  NoDup (Tag.id <$> tag db) →
  (λ r, Tag.id r.2) <$> taskTag_join_tag tid db
  = filter (λ i, i ∈ Tag.id <$> tag db) (TaskTag.tagId <$> links tid db).
Proof.
  intros Hnd. rewrite taskTag_join_tag_links.
  induction (links tid db) as [|r rs IH]; [done|].
  cbn [mbind list_bind]. rewrite !fmap_app, IH, fmap_cons, filter_cons.
  rewrite <- !list_fmap_compose.
  change (_ <$> filter _ (tag db) ++ ?rest)%list
    with ((Tag.id <$> filter (λ g, TaskTag.tagId r = Tag.id g) (tag db)) ++ rest)%list.
  rewrite (ids_of_matching_tags _ _ Hnd). by destruct (decide _).
Qed.

(** X16. With distinct tag ids, the [tags] array of every task object in a
    response has one entry for each task_tag row of the task whose tag id
    names a tag row (so a tag id stored twice gives two entries), and no
    entry carries an id or a name. *)
Theorem tags_array_entries c r db tj t tgs :
  NoDup (Tag.id <$> tag db) →
  tj ∈ response_objects (fetch c r db).1 →
  fields tj = Some t →
  tags tj = Some tgs →
  length tgs
  = length (filter (λ i, i ∈ Tag.id <$> tag (fetch c r db).2)
              (TaskTag.tagId <$> links (Task.id t) (fetch c r db).2))
  ∧ ∀ e, e ∈ tgs → entry_id e = None ∧ entry_name e = None.
Proof.
  intros Hnd Hin Hf Htg.
  pose proof (fetch_keeps_tag_ids_distinct c r db Hnd) as Hnd'.
  pose proof (reads_and_joined_tags c r db tj Hin) as Hread.
  assert (Htags : tgs = joined_tags (Task.id t) (fetch c r db).2).
  { destruct r; try (by rewrite Htg in Hread);
      destruct Hread as (tid & Htags & Hid); rewrite Htg in Htags;
      injection Htags as ->; by rewrite <- (Hid t Hf). }
  subst tgs. split.
  - unfold joined_tags. rewrite tagsForTask_object_rows, length_replicate.
    by rewrite <- (joined_ids_in_order _ _ Hnd'), length_fmap.
  - intros e He. by rewrite (joined_tags_empty _ _ _ He).
Qed.

(** * Properties of the client components *)

(** X17. Ticking the box of a tag selects it and unticking deselects it
    (every copy of its id is removed); the state of every other box is
    untouched; ticking then unticking a tag that was not selected restores
    the selection; and a selection without repeated ids stays so when each
    box is handed the opposite of the state it shows. *)
Theorem tag_checkbox_selection (selectedTags : list string) (id j : string) (b : bool) :
  includes (onChange_tag true id selectedTags) id = true
  ∧ includes (onChange_tag false id selectedTags) id = false
  ∧ (j ≠ id → includes (onChange_tag b id selectedTags) j = includes selectedTags j)
  ∧ (includes selectedTags id = false →
       onChange_tag false id (onChange_tag true id selectedTags) = selectedTags)
  ∧ (NoDup selectedTags →
       NoDup (onChange_tag (negb (includes selectedTags id)) id selectedTags)).
Proof.
  unfold includes, onChange_tag. split_and!.
  - apply bool_decide_eq_true. apply elem_of_app. right. left.
  - apply bool_decide_eq_false. by intros [? _]%list_elem_of_filter.
  - intros Hne. apply bool_decide_ext. destruct b.
    + rewrite elem_of_app, list_elem_of_singleton. tauto.
    + rewrite list_elem_of_filter. tauto.
  - intros Hout%bool_decide_eq_false. rewrite filter_app, filter_cons, decide_False by tauto.
    rewrite app_nil_r. apply filter_all, Forall_forall. by intros x Hx ->.
  - intros Hnd. destruct (bool_decide (id ∈ selectedTags)) eqn:Hin; simpl.
    + by apply NoDup_filter.
    + apply bool_decide_eq_false in Hin. apply NoDup_app. split_and!; [done| |apply NoDup_singleton].
      by intros x Hx ->%list_elem_of_singleton.
Qed.

Lemma status_tabs_permutation (tasks : list ClientTask.t) :
  status_tab todo tasks ++ status_tab in_progress tasks ++ status_tab completed tasks
  ≡ₚ tasks.
Proof.
  unfold status_tab. induction tasks as [|t ts IH]; [done|].
  rewrite !filter_cons. destruct (ClientTask.status t) eqn:Hs; simpl.
  - by rewrite IH.
  - rewrite <- Permutation_middle. by rewrite IH.
  - rewrite app_assoc, <- Permutation_middle, <- app_assoc. by rewrite IH.
Qed.

(** X18. In the task table the three status tabs split the loaded tasks:
    together they hold every task exactly once, so the three badge numbers
    add up to the number of tasks, whatever tag is selected. The tag filter
    of the first tab keeps the order of the tasks, shows all of them for the
    selections [""] and ["all"], and otherwise exactly those carrying a tag
    with the selected id. *)
Theorem task_table_tabs_and_filter (selectedTagId : string) (tasks : list ClientTask.t) :
  status_tab todo tasks ++ status_tab in_progress tasks ++ status_tab completed tasks
  ≡ₚ tasks
  ∧ (length (status_tab todo tasks) + length (status_tab in_progress tasks)
     + length (status_tab completed tasks) = length tasks)%nat
  ∧ filteredTasks selectedTagId tasks `sublist_of` tasks
  ∧ filteredTasks "" tasks = tasks
  ∧ filteredTasks "all" tasks = tasks
  ∧ (selectedTagId ≠ "" → selectedTagId ≠ "all" →
       ∀ t, t ∈ filteredTasks selectedTagId tasks
            ↔ t ∈ tasks ∧ selectedTagId ∈ ref_id <$> ClientTask.tags t).
Proof.
  split_and!.
  - apply status_tabs_permutation.
  - rewrite <- (Permutation_length (status_tabs_permutation tasks)), !length_app. lia.
  - unfold filteredTasks. destruct (decide _); [apply sublist_filter | done].
  - done.
  - done.
  - intros H1 H2 t. unfold filteredTasks. rewrite decide_True by done.
    rewrite list_elem_of_filter, Exists_exists, list_elem_of_fmap. split.
    + intros [(tag & Htag & Hid) Ht]. split; [done|]. by exists tag.
    + intros [Ht (tag & Hid & Htag)]. split; [|done]. by exists tag.
Qed.

(** X19. A click on the theme toggle, in a state the effect has settled,
    always changes the theme and flips what is shown: the new theme is
    ["dark"] or ["light"], never ["system"], it differs from the one shown
    before, the class [dark] is on the root element exactly when it is
    ["dark"], the system preference plays no part, and the stored value
    brings the same theme back at the next mount, whatever the default. *)
Theorem theme_toggle_flips (matches matches0 : bool) (s : ThemeState) :
  actualTheme s = resolvedTheme (theme s) matches0 →
  let s' := ThemeToggle_onClick matches s in
  theme s' ≠ theme s
  ∧ (theme s' = "dark" ∨ theme s' = "light")
  ∧ actualTheme s' = theme s'
  ∧ actualTheme s' ≠ actualTheme s
  ∧ (root_dark s' = true ↔ actualTheme s' = "dark")
  ∧ ThemeToggle_onClick (negb matches) s = s'
  ∧ stored s' = Some (theme s')
  ∧ ∀ defaultTheme dark, theme (mounted (stored s') defaultTheme dark) = theme s'.
Proof.
  intros Hsettled. unfold ThemeToggle_onClick, setTheme, theme_effect, resolvedTheme in *.
  cbn zeta. simpl.
  destruct (decide (actualTheme s = "dark")) as [Hd|Hd]; simpl.
  - assert (Hth : "light" ≠ theme s).
    { intros Heq. rewrite <- Heq in Hsettled. simpl in Hsettled. congruence. }
    assert (Hac : "light" ≠ actualTheme s) by by rewrite Hd.
    split_and!; first [done | by right].
  - assert (Hth : "dark" ≠ theme s).
    { intros Heq. rewrite <- Heq in Hsettled. simpl in Hsettled. congruence. }
    assert (Hac : "dark" ≠ actualTheme s) by by intros Heq.
    split_and!; first [done | by left].
Qed.

(** X20. The theme effect and its listener: the class [dark] is on the root
    element exactly for the theme ["dark"] and for ["system"] when the
    system prefers dark; the effect stores the theme, and the next mount
    takes a stored non-empty value as it is (even one that is no theme) and
    the default otherwise; while the theme is ["system"] a change of the
    system preference leaves what the effect would, and under any other
    theme it changes nothing. *)
Theorem theme_effect_and_listener (matches : bool) (s : ThemeState)
    (defaultTheme : string) (dark : bool) :
  (root_dark (theme_effect matches s) = true
   ↔ theme s = "dark" ∨ (theme s = "system" ∧ matches = true))
  ∧ (theme s ≠ "" →
       theme (mounted (stored (theme_effect matches s)) defaultTheme dark) = theme s)
  ∧ theme (mounted None defaultTheme dark) = defaultTheme
  ∧ theme (mounted (Some "") defaultTheme dark) = defaultTheme
  ∧ (theme s = "system" →
       actualTheme (handleChange matches s) = actualTheme (theme_effect matches s)
       ∧ root_dark (handleChange matches s) = root_dark (theme_effect matches s)
       ∧ theme (handleChange matches s) = "system")
  ∧ (theme s ≠ "system" → handleChange matches s = s)
  ∧ theme_effect matches (theme_effect matches s) = theme_effect matches s.
Proof.
  unfold theme_effect, handleChange, mounted, initialTheme, resolvedTheme. simpl.
  split_and!.
  - rewrite bool_decide_eq_true.
    destruct (decide (theme s = "system")) as [Hs|Hs].
    + rewrite Hs. destruct matches; split; try done; [by right | by intros [?|[_ ?]]].
    + split; [by left | by intros [?|[? _]]].
  - intros Hne. by rewrite decide_False.
  - done.
  - done.
  - intros Hs. rewrite !decide_True by done. simpl. split_and!; [done| |done].
    by destruct matches.
  - intros Hs. by rewrite decide_False.
  - done.
Qed.

(** * Worked requests for the further properties *)

(** X1, instance: Bob's DELETE of Alice's task is refused and changes nothing. *)
Lemma reads_and_refusals_change_nothing_witness :
  let out := fetch (signed_in "bob" 20 "") (DELETE_tasks_id "t1") (sample true Cascade) in
  status out.1 = 404 ∧ out.2 = sample true Cascade.
Proof.
  cbn zeta. split; [reflexivity|].
  refine (proj2 (reads_and_refusals_change_nothing (signed_in "bob" 20 "")
                   (DELETE_tasks_id "t1") (sample true Cascade) _ _ eq_refl) _).
  right. right. reflexivity.
Defined.

(** X3, instance: after Alice's PATCH her task row still has its id, owner
    and creation date. *)
Lemma task_rows_keep_identity_witness :
  let db' := (fetch (signed_in "alice" 20 "") (retag ["g2"]) (sample true Cascade)).2 in
  Forall (λ t', Task.id t' = "t1" ∧ Task.userId t' = "alice" ∧ Task.createdAt t' = 10%Z)
    (task db').
Proof.
  cbn zeta. apply Forall_forall. intros t' Hin.
  destruct (task_rows_keep_identity (signed_in "alice" 20 "") (retag ["g2"])
              (sample true Cascade) t' Hin)
    as [(t & Ht & Hid & Hown & Hcr & _)|(raw & u & Hr & _)]; [|discriminate Hr].
  apply list_elem_of_singleton in Ht. subst t. by split_and!.
Defined.

(** X4, instance: the sample rows have titles and names, and keep them
    through a PATCH that sets a title. *)
Lemma titles_and_names_stay_non_empty_witness :
  let r := PATCH_tasks_id "t1" (JObject [("title", JString "Buy oat milk")]) in
  Forall (λ t, Task.title t ≠ "")
    (task (fetch (signed_in "alice" 20 "") r (sample true Cascade)).2).
Proof.
  cbn zeta. apply Forall_forall.
  refine (proj1 (titles_and_names_stay_non_empty (signed_in "alice" 20 "") _
                   (sample true Cascade) _ _)).
  - intros t ->%list_elem_of_singleton. discriminate.
  - intros g [->| ->%list_elem_of_singleton]%elem_of_cons; discriminate.
Defined.

(** X5, instance: a task created from a bare title. *)
Lemma post_applies_schema_defaults_witness :
  let c := signed_in "alice" 20 "t2" in
  let o := [("title", JString "Call mum")] in
  status (fetch c (POST_tasks (JObject o)) (sample true Cascade)).1 = 201
  ∧ ∃ t, t ∈ task (fetch c (POST_tasks (JObject o)) (sample true Cascade)).2
      ∧ Task.id t = "t2" ∧ Task.status t = todo ∧ Task.priority t = medium
      ∧ Task.description t = None.
Proof.
  cbn zeta. split; [reflexivity|].
  destruct (post_applies_schema_defaults (signed_in "alice" 20 "t2")
              [("title", JString "Call mum")] (sample true Cascade) _ _ eq_refl eq_refl)
    as (u & t & tgs & _ & _ & Hin & Hid & _ & _ & _ & _ & Hs & Hp & Hd).
  exists t. split_and!; [exact Hin | exact Hid | exact (Hs eq_refl) | exact (Hp eq_refl)
                        | exact (Hd eq_refl)].
Defined.

(** X6, instance: Alice reads back the task she created. *)
Lemma post_then_get_returns_created_task_witness :
  let c := signed_in "alice" 20 "t2" in
  let out := fetch c (create "Call mum" ["g1"]) (sample true Cascade) in
  status out.1 = 201
  ∧ ∃ t tgs, payload out.1 = task_payload {| fields := Some t; tags := Some tgs |}
      ∧ (fetch (signed_in "alice" 21 "") (GET_tasks_id (Task.id t)) out.2).1
        = c_json (task_payload {| fields := Some t; tags := None |}) 200.
Proof.
  cbn zeta. split; [reflexivity|].
  destruct (post_then_get_returns_created_task (signed_in "alice" 20 "t2")
              (JObject [("title", JString "Call mum"); ("tags", JArray [JString "g1"])])
              (sample true Cascade) _ _ eq_refl eq_refl)
    as (u & t & tgs & Hu & Hp & Hget & _).
  injection Hu as <-. exists t, tgs. split; [exact Hp|].
  exact (f_equal fst (Hget (signed_in "alice" 21 "") eq_refl)).
Defined.

(** X7, instance: Bob creates his first tag and lists his tags. *)
Lemma post_tag_then_get_tags_witness :
  let c := signed_in "bob" 20 "g3" in
  let out := fetch c (POST_tags (JObject [("name", JString "work")])) (sample true Cascade) in
  status out.1 = 201
  ∧ ∃ g, Tag.name g = "work" ∧ Tag.userId g = "bob"
      ∧ (fetch (signed_in "bob" 21 "") GET_tags out.2).1 = c_json (tags_payload [g]) 200.
Proof.
  cbn zeta. split; [reflexivity|].
  destruct (post_tag_then_get_tags (signed_in "bob" 20 "g3") [("name", JString "work")]
              (sample true Cascade) _ _ eq_refl eq_refl)
    as (u & g & Hu & _ & Hown & Hname & _ & Hget).
  injection Hu as <-. injection Hname as Hname. exists g. split_and!.
  - by symmetry.
  - exact Hown.
  - exact (f_equal fst (Hget (signed_in "bob" 21 "") eq_refl)).
Defined.

(** X8, instance: Bob owns no task with id [t1]. *)
Lemma not_found_iff_not_owned_witness :
  fetch (signed_in "bob" 20 "") (PATCH_tasks_id "t1" (JObject [])) (sample true Cascade)
  = (Task_not_found, sample true Cascade).
Proof.
  refine (proj1 (proj2 (proj1 (not_found_iff_not_owned (signed_in "bob" 20 "")
            {| user_id := "bob" |} "t1" (JObject []) (sample true Cascade) eq_refl _) _))).
  - by eexists.
  - intros (t & ->%list_elem_of_singleton & _ & Hown). discriminate Hown.
Defined.

(** X9, instance: Alice deletes her task where nothing cascades. *)
Lemma delete_removes_only_the_task_witness :
  let out := fetch (signed_in "alice" 20 "") (DELETE_tasks_id "t1") (sample false NoAction) in
  status out.1 = 200 ∧ task out.2 = [] ∧ tag out.2 = [home; urgent].
Proof.
  cbn zeta. split; [reflexivity|].
  destruct (delete_removes_only_the_task (signed_in "alice" 20 "") "t1"
              (sample false NoAction) _ _ eq_refl eq_refl) as (Ht & Hg & _).
  split; [exact Ht | exact Hg].
Defined.

(** X10, instance: Alice renames her task and reads it back. *)
Lemma patch_then_get_returns_patched_row_witness :
  let r := PATCH_tasks_id "t1" (JObject [("title", JString "Buy oat milk")]) in
  let out := fetch (signed_in "alice" 20 "") r (sample true Cascade) in
  (NoDup (Task.id <$> task (sample true Cascade)) ∧ status out.1 = 200)
  ∧ ∃ t, Task.updatedAt t = 20%Z
      ∧ (fetch (signed_in "alice" 21 "") (GET_tasks_id "t1") out.2).1
        = c_json (task_payload {| fields := Some t; tags := None |}) 200.
Proof.
  cbn zeta.
  assert (Hnd : NoDup (Task.id <$> task (sample true Cascade))) by apply NoDup_singleton.
  split; [split; [exact Hnd | reflexivity]|].
  destruct (patch_then_get_returns_patched_row (signed_in "alice" 20 "") "t1"
              (JObject [("title", JString "Buy oat milk")]) (sample true Cascade) _ _
              Hnd eq_refl eq_refl)
    as (u & t & tgs & Hu & _ & _ & _ & Hup & Hget).
  injection Hu as <-. exists t. split; [exact Hup|].
  exact (f_equal fst (Hget (signed_in "alice" 21 "") eq_refl)).
Defined.

(** X11, instance: Alice lists her tasks tagged [g1], of which she has one. *)
Lemma tag_filter_never_lists_a_task_witness :
  fetch (signed_in "alice" 20 "") (GET_tasks (Some "g1")) (sample true Cascade)
  = (c_json internal_server_error 500, sample true Cascade).
Proof.
  assert (Hne : "g1" ≠ "") by discriminate.
  refine (proj1 (tag_filter_never_lists_a_task (signed_in "alice" 20 "")
                   {| user_id := "alice" |} "g1" (sample true Cascade) eq_refl Hne) _).
  exists buy_milk. split_and!; [left | reflexivity | left].
Defined.

(** X12, instance: a POST /tasks whose drawn id is taken. *)
Lemma fetch_keeps_primary_keys_witness :
  fetch (signed_in "alice" 20 "t1") (create "Call mum" []) (sample true Cascade)
  = (c_json internal_server_error 500, sample true Cascade).
Proof.
  assert (Ht : NoDup (Task.id <$> task (sample true Cascade))) by apply NoDup_singleton.
  assert (Hg : NoDup (Tag.id <$> tag (sample true Cascade))).
  { apply NoDup_cons. split; [|apply NoDup_singleton].
    intros Hin%list_elem_of_singleton. discriminate Hin. }
  destruct (fetch_keeps_primary_keys (signed_in "alice" 20 "t1") (create "Call mum" [])
              (sample true Cascade) Ht Hg) as (_ & _ & Hclash & _).
  apply (Hclash _ eq_refl); [by eexists | by eexists | left].
Defined.

(** X13, instance: the sample database, with foreign keys enforced, after
    Alice retags her task. *)
Lemma enforced_foreign_keys_hold_witness :
  let db' := (fetch (signed_in "alice" 20 "") (retag ["g2"]) (sample true Cascade)).2 in
  Forall (λ x, TaskTag.tagId x ∈ Tag.id <$> tag db') (taskTag db').
Proof.
  cbn zeta. apply Forall_forall. intros x Hx.
  refine (proj2 (enforced_foreign_keys_hold (signed_in "alice" 20 "") (retag ["g2"])
                   (sample true Cascade) eq_refl _ x Hx)).
  intros y ->%list_elem_of_singleton. split; left.
Defined.

(** X14, instance: Alice retags with an id that names no tag; the answer is
    500 and her task has lost its tag. *)
Lemma failed_patch_is_not_rolled_back_witness :
  let out := fetch (signed_in "alice" 20 "") (retag ["ghost"]) (sample true Cascade) in
  status out.1 = 500
  ∧ ∃ k, links "t1" out.2 = TaskTag.mk "t1" <$> take k ["ghost"]
      ∧ ["ghost"] !! k = Some "ghost".
Proof.
  cbn zeta. split; [reflexivity|].
  destruct (failed_patch_is_not_rolled_back (signed_in "alice" 20 "") "t1"
              (JObject [("tags", JArray [JString "ghost"])]) (sample true Cascade) _ _
              eq_refl eq_refl)
    as (body & l & k & g & Hraw & Hl & _ & Hk & _ & Hlinks & _).
  injection Hraw as <-. injection Hl as <-. exists k. split; [exact Hlinks|].
  destruct k as [|[|k]]; [reflexivity | discriminate Hk | discriminate Hk].
Defined.

(** X15, instance: Alice creates a task with an id that names no tag; the
    answer is 500 and the task row is stored. *)
Lemma failed_post_is_not_rolled_back_witness :
  let out := fetch (signed_in "alice" 20 "t2") (create "Call mum" ["ghost"])
               (sample true Cascade) in
  status out.1 = 500 ∧ length (task out.2) = 2.
Proof.
  cbn zeta. split; [reflexivity|].
  destruct (failed_post_is_not_rolled_back (signed_in "alice" 20 "t2")
              (JObject [("title", JString "Call mum"); ("tags", JArray [JString "ghost"])])
              (sample true Cascade) _ _ eq_refl eq_refl)
    as [[Hin _]|(body & u & k & g & _ & _ & _ & _ & _ & Ht & _)].
  - apply list_elem_of_singleton in Hin. discriminate Hin.
  - exact (f_equal length Ht).
Defined.

(** X16, instance: the [tags] array of the task in Alice's listing. *)
Lemma tags_array_entries_witness :
  length (joined_tags "t1" (sample true Cascade)) = 1.
Proof.
  assert (Hg : NoDup (Tag.id <$> tag (sample true Cascade))).
  { apply NoDup_cons. split; [|apply NoDup_singleton].
    intros Hin%list_elem_of_singleton. discriminate Hin. }
  refine (proj1 (tags_array_entries (signed_in "alice" 20 "") (GET_tasks None)
                   (sample true Cascade) (embed (sample true Cascade) buy_milk) buy_milk _
                   Hg _ eq_refl eq_refl)).
  left.
Defined.

(** X17, instance: ticking [g2] beside a selected [g1]. *)
Lemma tag_checkbox_selection_witness :
  NoDup (onChange_tag (negb (includes ["g1"] "g2")) "g2" ["g1"]).
Proof.
  refine (proj2 (proj2 (proj2 (proj2 (tag_checkbox_selection ["g1"] "g2" "g1" true)))) _).
  apply NoDup_singleton.
Defined.

(** X18, instance: a task tagged [g1] is shown when [g1] is selected. *)
Lemma task_table_tabs_and_filter_witness :
  let t := ClientTask.mk "t1" "Buy milk" "" todo medium
             [ {| ref_id := "g1"; ref_name := "home" |} ] "2024-01-01" in
  t ∈ filteredTasks "g1" [t].
Proof.
  cbn zeta.
  assert (H1 : "g1" ≠ "") by discriminate.
  assert (H2 : "g1" ≠ "all") by discriminate.
  refine (proj2 (proj2 (proj2 (proj2 (proj2 (proj2 (task_table_tabs_and_filter "g1" _)))))
                   H1 H2 _) _).
  split; left.
Defined.

(** X19, instance: the first click after a mount with the default ["system"]
    on a system that prefers dark. *)
Lemma theme_toggle_flips_witness :
  let s := theme_effect true (mounted None "system" false) in
  actualTheme s = "dark" ∧ theme (ThemeToggle_onClick true s) = "light".
Proof.
  cbn zeta. split; [reflexivity|].
  destruct (theme_toggle_flips true true (theme_effect true (mounted None "system" false))
              eq_refl) as (_ & [Hd|Hl] & _); [discriminate Hd | exact Hl].
Defined.

(** X20, instance: the theme ["dark"] comes back at the next mount. *)
Lemma theme_effect_and_listener_witness :
  let s := mounted (Some "dark") "system" false in
  theme (mounted (stored (theme_effect false s)) "light" false) = "dark".
Proof.
  cbn zeta.
  refine (proj1 (proj2 (theme_effect_and_listener false (mounted (Some "dark") "system" false)
                          "light" false)) _).
  discriminate.
Defined.
